(** * cuda-api-wrappers: handle proxies, context discipline and scheduling parameters

    A shallow embedding of the proxy classes of
    - [event.hpp]          ([event_t] and its free functions),
    - [kernel.hpp]         ([kernel_t] and the occupancy calculator),
    - [nvrtc/program.hpp]  ([rtc::program_t] and its factories),
    together with the properties the design document states about them.

    The wrappers are thin: every method issues one or two calls of the native
    platform (CUDA driver, NVRTC) and turns the returned status into a value
    or into a C++ exception.  The embedding therefore consists of
    - the native platform as an interface ([Platform]), a state machine on an
      abstract world [W]: one field per native entry point;
    - a state-and-exception monad [M] for the calling thread, in which the
      state survives a [throw] (this is what makes destructors of automatic
      objects observable on the exceptional path);
    - a log of the native calls the thread has issued ([calls]), so that
      statements such as "released exactly once" can be made;
    - one Rocq function per C++ function, with the C++ name. *)

From Stdlib Require Import ZArith NArith List String Bool Lia.
From Stdlib Require Import HexadecimalString.
From Stdlib.Strings Require Import Byte.
Import ListNotations.

Local Open Scope string_scope.
Local Open Scope list_scope.
Local Open Scope Z_scope.

(** [::std::string] concatenation, written [+] in the sources. *)
Local Notation "a +++ b" := (String.append a b)
  (at level 60, right associativity).

(* ===================================================================== *)
(** * Basic types *)
(* ===================================================================== *)

(** Native handles ([CUevent], [CUcontext], [CUfunction], [CUstream],
    [nvrtcProgram]) are pointers; they are modelled by their address. *)
Definition handle_t := Z.

(** [cuda::status_t] ([CUresult]) and the NVRTC status ([nvrtcResult]). *)
Definition status_t := Z.

(** [cuda::device::id_t] is [int]. *)
Definition device_id_t := Z.

(** [size_t]. *)
Definition size_t := N.

(** [dynarray<char>]: a heap buffer owned by its holder. *)
Definition dynarray := list byte.

(** ** Constants of the CUDA and NVRTC headers *)

Definition CUDA_SUCCESS : status_t := 0.
Definition CUDA_ERROR_NOT_READY : status_t := 600.
Definition NVRTC_SUCCESS : status_t := 0.
Definition NVRTC_ERROR_INVALID_PROGRAM : status_t := 4.

Definition CU_EVENT_BLOCKING_SYNC : Z := 1.
Definition CU_EVENT_DISABLE_TIMING : Z := 2.
Definition CU_EVENT_INTERPROCESS : Z := 4.

Definition CU_OCCUPANCY_DEFAULT : Z := 0.
Definition CU_OCCUPANCY_DISABLE_CACHING_OVERRIDE : Z := 1.

Definition CU_FUNC_ATTRIBUTE_MAX_THREADS_PER_BLOCK : Z := 0.
Definition CU_FUNC_ATTRIBUTE_MAX_DYNAMIC_SHARED_SIZE_BYTES : Z := 8.

(** [stream::default_stream_handle] is the null stream. *)
Definition default_stream_handle : handle_t := 0.

(** ** Integer conversions

    [grid::dimension_t] and [grid::block_dimension_t] are [unsigned int]
    (the type of [dim3::x]); the driver takes and returns [int]. *)

Definition to_int (z : Z) : Z := (z + 2 ^ 31) mod 2 ^ 32 - 2 ^ 31.
Definition to_unsigned (z : Z) : Z := z mod 2 ^ 32.

(* ===================================================================== *)
(** * The native platform *)
(* ===================================================================== *)

(** The calls a thread can issue, with the arguments it passes in.  Output
    parameters are not part of the call; they are what the platform answers. *)
Inductive native_call : Type :=
| CuEventCreate (flags : Z)
| CuEventRecord (event stream : handle_t)
| CuEventQuery (event : handle_t)
| CuEventSynchronize (event : handle_t)
| CuEventDestroy (event : handle_t)
| CuFuncGetAttribute (attribute : Z) (f : handle_t)
| CuFuncSetCacheConfig (f : handle_t) (config : Z)
| CuFuncSetSharedMemConfig (f : handle_t) (config : Z)
| CuOccupancyMaxPotentialBlockSizeWithFlags
    (f : handle_t) (blockSizeToDynamicSMemSize : option (Z -> N))
    (dynamicSMemSize : N) (blockSizeLimit : Z) (flags : Z)
| NvrtcCreateProgram (src name : string) (numHeaders : Z)
    (headers includeNames : list string)
| NvrtcDestroyProgram (prog : handle_t)
| NvrtcCompileProgram (prog : handle_t) (options : list string)
| NvrtcAddNameExpression (prog : handle_t) (name_expression : string)
| NvrtcGetLoweredName (prog : handle_t) (name_expression : string)
| NvrtcGetProgramLogSize (prog : handle_t)
| NvrtcGetProgramLog (prog : handle_t)
| NvrtcGetPTXSize (prog : handle_t)
| NvrtcGetPTX (prog : handle_t)
| NvrtcGetCUBINSize (prog : handle_t)
| NvrtcGetCUBIN (prog : handle_t)
| NvrtcGetNVVMSize (prog : handle_t)
| NvrtcGetNVVM (prog : handle_t).

(** The platform: a deterministic state machine over a world [W].  Each
    entry point returns its status, its output parameters and the next
    world.  The last group of fields are not native: they are a named
    status and the text helpers of the library's own headers, which the
    three files use for error reporting and which are declared
    elsewhere. *)
Class Platform (W : Type) : Type := {
  CUDART_VERSION : Z;

  cuEventCreate : Z -> W -> status_t * handle_t * W;
  cuEventRecord : handle_t -> handle_t -> W -> status_t * W;
  cuEventQuery : handle_t -> W -> status_t * W;
  cuEventSynchronize : handle_t -> W -> status_t * W;
  cuEventDestroy : handle_t -> W -> status_t * W;

  cuFuncGetAttribute : Z -> handle_t -> W -> status_t * Z * W;
  cuFuncSetCacheConfig : handle_t -> Z -> W -> status_t * W;
  cuFuncSetSharedMemConfig : handle_t -> Z -> W -> status_t * W;
  (** outputs: [*minGridSize], [*blockSize] *)
  cuOccupancyMaxPotentialBlockSizeWithFlags :
    handle_t -> option (Z -> N) -> N -> Z -> Z -> W -> status_t * (Z * Z) * W;

  nvrtcCreateProgram :
    string -> string -> Z -> list string -> list string -> W ->
    status_t * handle_t * W;
  nvrtcDestroyProgram : handle_t -> W -> status_t * W;
  nvrtcCompileProgram : handle_t -> list string -> W -> status_t * W;
  nvrtcAddNameExpression : handle_t -> string -> W -> status_t * W;
  nvrtcGetLoweredName : handle_t -> string -> W -> status_t * string * W;
  nvrtcGetProgramLogSize : handle_t -> W -> status_t * size_t * W;
  nvrtcGetProgramLog : handle_t -> W -> status_t * list byte * W;
  nvrtcGetPTXSize : handle_t -> W -> status_t * size_t * W;
  nvrtcGetPTX : handle_t -> W -> status_t * list byte * W;
  nvrtcGetCUBINSize : handle_t -> W -> status_t * size_t * W;
  nvrtcGetCUBIN : handle_t -> W -> status_t * list byte * W;
  nvrtcGetNVVMSize : handle_t -> W -> status_t * size_t * W;
  nvrtcGetNVVM : handle_t -> W -> status_t * list byte * W;

  (** [cuda::status::not_yet_implemented] *)
  status_not_yet_implemented : status_t;
  ptr_as_hex : handle_t -> string;
  event_identify : handle_t -> string;
  event_identify_full : handle_t -> handle_t -> device_id_t -> string;
  stream_identify : handle_t -> string;
  kernel_identify : handle_t -> device_id_t -> string
}.

(* ===================================================================== *)
(** * The calling thread: state, exceptions, the monad *)
(* ===================================================================== *)

(** The exceptions the three files throw. *)
Inductive exception : Type :=
| cuda_runtime_error (status : status_t) (what : string)
| rtc_runtime_error (status : status_t) (what : string)
| std_logic_error (what : string)
| std_invalid_argument (what : string).

Inductive outcome (A : Type) : Type :=
| Returned (a : A)
| Thrown (e : exception).
Arguments Returned {A} a.
Arguments Thrown {A} e.

Record thread_state (W : Type) : Type := mk_thread_state {
  native : W;                        (* the platform's world *)
  calls : list native_call;          (* native calls issued so far, oldest first *)
  context_stack : list handle_t      (* the thread's contexts, current on top *)
}.
Arguments mk_thread_state {W}.
Arguments native {W}.
Arguments calls {W}.
Arguments context_stack {W}.

Definition M (W A : Type) : Type := thread_state W -> outcome A * thread_state W.

Definition ret {W A} (a : A) : M W A := fun st => (Returned a, st).

Definition throw {W A} (e : exception) : M W A := fun st => (Thrown e, st).

Definition bind {W A B} (m : M W A) (k : A -> M W B) : M W B :=
  fun st =>
    match m st with
    | (Returned a, st') => k a st'
    | (Thrown e, st') => (Thrown e, st')
    end.

(** [try { m } catch (...) { }]: used by client code in the statements
    below, not by the library. *)
Definition try_discard {W A} (m : M W A) : M W unit :=
  fun st => (Returned tt, snd (m st)).

Declare Scope cpp_scope.
Delimit Scope cpp_scope with cpp.
Notation "x <- m ;; k" := (bind m (fun x => k))
  (at level 61, m at next level, right associativity) : cpp_scope.
Notation "' pat <- m ;; k" :=
  (bind m (fun x => match x with pat => k end))
  (at level 61, pat pattern, m at next level, right associativity) : cpp_scope.
Notation "m ;; k" := (bind m (fun _ => k))
  (at level 61, right associativity) : cpp_scope.
Local Open Scope cpp_scope.

(** The thread's current context. *)
Definition current_context {W} (st : thread_state W) : option handle_t :=
  hd_error (context_stack st).

Section NativeCalls.
Context {W : Type} {P : Platform W}.

(** Issue a native call that has no output parameter: the platform moves
    to its next world and the call is appended to the thread's log. *)
Definition native_call_ (c : native_call) (f : W -> status_t * W)
  : M W status_t :=
  fun st =>
    let '(status, w) := f (native st) in
    (Returned status, mk_thread_state w (calls st ++ [c]) (context_stack st)).

(** Issue a native call with output parameters [A]. *)
Definition native_call_out {A : Type} (c : native_call)
    (f : W -> status_t * A * W) : M W (status_t * A) :=
  fun st =>
    let '(status, out, w) := f (native st) in
    (Returned (status, out),
     mk_thread_state w (calls st ++ [c]) (context_stack st)).

(** Modelled from the spec: [cuda::throw_if_error] of [cuda/api/error.hpp],
    which is not among the three files.  Section 6: a return code is
    success or "an error (translated into a thrown/returned failure
    carrying the native status code and a human-readable operation
    description)". *)
Definition throw_if_error (status : status_t) (message : string) : M W unit :=
  if status =? CUDA_SUCCESS then ret tt
  else throw (cuda_runtime_error status message).

(** Modelled from the spec: [cuda::rtc::throw_if_error] of
    [cuda/nvrtc/error.hpp], the same for NVRTC statuses. *)
Definition rtc_throw_if_error (status : status_t) (message : string)
  : M W unit :=
  if status =? NVRTC_SUCCESS then ret tt
  else throw (rtc_runtime_error status message).

(** Modelled from the spec: [context::current::detail_::scoped_override_t]
    of [cuda/api/current_context.hpp], which is not among the three files.
    Section 4.2: "pushes a target context onto this slot on construction
    and restores the previously current context on destruction --
    unconditionally, including when the wrapped operation raises an
    error"; section 9: "an explicit thread-scoped stack abstraction
    (push/pop object with guaranteed pop on scope exit)". *)
Definition scoped_override_t_ctor (context_handle : handle_t) : M W unit :=
  fun st =>
    (Returned tt,
     mk_thread_state (native st) (calls st)
       (context_handle :: context_stack st)).

(** Modelled from the spec: the destructor of [scoped_override_t], which
    "restores the previously current context". *)
Definition scoped_override_t_dtor : M W unit :=
  fun st =>
    (Returned tt,
     mk_thread_state (native st) (calls st) (tl (context_stack st))).

(** Modelled from the spec: a block
    [{ scoped_override_t o(context_handle); scope }].  The override is an
    automatic object: its destructor runs when [scope] is left, by
    [return] or by an exception alike ("guaranteed pop on scope exit"). *)
Definition scoped_override_t {A : Type} (context_handle : handle_t)
    (scope : M W A) : M W A :=
  fun st =>
    let st1 := snd (scoped_override_t_ctor context_handle st) in
    let (r, st2) := scope st1 in
    (r, snd (scoped_override_t_dtor st2)).

(** A [dynarray<char> result(size)] before anything is written to it. *)
Definition dynarray_of_size (size : size_t) : dynarray :=
  repeat x00 (N.to_nat size).

(** The platform writes [data] to the start of the caller's buffer
    ([result.data()]); the buffer keeps its size. *)
Definition written_into (buffer : dynarray) (data : list byte) : dynarray :=
  firstn (List.length buffer) data ++ skipn (List.length data) buffer.

End NativeCalls.

(* ===================================================================== *)
(** * event.hpp *)
(* ===================================================================== *)

Module Event.

(** [class event_t]: its data members. *)
Record event_t : Type := mk_event_t {
  device_id_ : device_id_t;
  context_handle_ : handle_t;
  handle_ : handle_t;
  owning : bool
}.

(** ** Constructors (pure: none of them calls the platform) *)

(** [event_t(device_id, context_handle, event_handle, take_ownership)] *)
Definition event_t_ctor (device_id : device_id_t)
    (context_handle event_handle : handle_t) (take_ownership : bool)
  : event_t :=
  mk_event_t device_id context_handle event_handle take_ownership.

(** [event_t(const event_t& other)]: the result is (new object, [other]
    afterwards); [other] is const and comes back as it was. *)
Definition event_t_copy (other : event_t) : event_t * event_t :=
  (event_t_ctor (device_id_ other) (context_handle_ other) (handle_ other)
     false,
   other).

(** [event_t(event_t&& other)]: produces the new object and leaves
    [other] with [owning = false]; the result is (new object, [other]
    afterwards). *)
Definition event_t_move (other : event_t) : event_t * event_t :=
  (event_t_ctor (device_id_ other) (context_handle_ other) (handle_ other)
     (owning other),
   mk_event_t (device_id_ other) (context_handle_ other) (handle_ other)
     false).

(** [event::wrap] *)
Definition wrap (device_id : device_id_t)
    (context_handle event_handle : handle_t) (take_ownership : bool)
  : event_t :=
  event_t_ctor device_id context_handle event_handle take_ownership.

(** Getters. *)
Definition device_id (this : event_t) : device_id_t := device_id_ this.
Definition context_handle (this : event_t) : handle_t := context_handle_ this.
Definition handle (this : event_t) : handle_t := handle_ this.
Definition is_owning (this : event_t) : bool := owning this.

(** [event::detail_::make_flags] *)
Definition make_flags (uses_blocking_sync records_timing interprocess : bool)
  : Z :=
  Z.lor
    (Z.lor (if uses_blocking_sync then CU_EVENT_BLOCKING_SYNC else 0)
           (if records_timing then 0 else CU_EVENT_DISABLE_TIMING))
    (if interprocess then CU_EVENT_INTERPROCESS else 0).

Section WithPlatform.
Context {W : Type} {P : Platform W}.

(** [event::detail_::enqueue] *)
Definition enqueue (stream_handle event_handle : handle_t) : M W unit :=
  status <- native_call_ (CuEventRecord event_handle stream_handle)
              (cuEventRecord event_handle stream_handle) ;;
  throw_if_error status
    ("Failed recording " +++ event_identify event_handle
     +++ " on " +++ stream_identify stream_handle).

(** [event::detail_::identify(const event_t&)] *)
Definition identify (event : event_t) : string :=
  event_identify_full (handle event) (context_handle event)
    (device_id event).

(** [event_t::has_occurred] *)
Definition has_occurred (this : event_t) : M W bool :=
  status <- native_call_ (CuEventQuery (handle_ this))
              (cuEventQuery (handle_ this)) ;;
  if status =? CUDA_SUCCESS then ret true
  else if status =? CUDA_ERROR_NOT_READY then ret false
  else throw (cuda_runtime_error status
         ("Could not determine whether " +++ event_identify (handle_ this)
          +++ "has already occurred or not.")).

(** [event_t::query] *)
Definition query (this : event_t) : M W bool := has_occurred this.

(** [event_t::record()] *)
Definition record (this : event_t) : M W unit :=
  enqueue default_stream_handle (handle_ this).

(** [cuda::synchronize(const event_t&)] *)
Definition synchronize (event : event_t) : M W unit :=
  let context_handle := context_handle event in
  let event_handle := handle event in
  scoped_override_t context_handle (
    status <- native_call_ (CuEventSynchronize event_handle)
                (cuEventSynchronize event_handle) ;;
    throw_if_error status ("Failed synchronizing " +++ identify event)).

(** [event_t::synchronize] *)
Definition event_t_synchronize (this : event_t) : M W unit :=
  synchronize this.

(** [event_t::~event_t]: the status of [cuEventDestroy] is dropped. *)
Definition event_t_dtor (this : event_t) : M W unit :=
  if owning this then
    _ <- native_call_ (CuEventDestroy (handle_ this))
           (cuEventDestroy (handle_ this)) ;;
    ret tt
  else ret tt.

(** [event::detail_::create_in_current_context] *)
Definition create_in_current_context (current_device_id : device_id_t)
    (current_context_handle : handle_t)
    (uses_blocking_sync records_timing interprocess : bool)
  : M W event_t :=
  let flags := make_flags uses_blocking_sync records_timing interprocess in
  '(status, new_event_handle) <-
     native_call_out (CuEventCreate flags) (cuEventCreate flags) ;;
  throw_if_error status
    "failed creating a CUDA event associated with the current device" ;;
  let take_ownership := true in
  ret (wrap current_device_id current_context_handle new_event_handle
         take_ownership).

(** [event::detail_::create] *)
Definition create (device_id : device_id_t) (context_handle : handle_t)
    (uses_blocking_sync records_timing interprocess : bool)
  : M W event_t :=
  scoped_override_t context_handle
    (create_in_current_context device_id context_handle
       uses_blocking_sync records_timing interprocess).

End WithPlatform.

End Event.

(* ===================================================================== *)
(** * nvrtc/program.hpp *)
(* ===================================================================== *)

(** The double-quote character (ASCII 34), for the messages that quote a
    name. *)
Definition double_quote : string :=
  String (Ascii.ascii_of_nat 34) EmptyString.

Module Program.

(** [class program_t]: its data members. *)
Record program_t : Type := mk_program_t {
  handle_ : handle_t;
  name_ : string;
  owning_ : bool
}.

(** Getters. *)
Definition name (this : program_t) : string := name_ this.
Definition handle (this : program_t) : handle_t := handle_ this.

(** [program_t(handle, name, owning = false)] (protected) *)
Definition program_t_wrap (handle : handle_t) (name : string) (owning : bool)
  : program_t :=
  mk_program_t handle name owning.

(** [program_t(program_t&& other) noexcept]: produces the new object and
    leaves [other] with [owning_ = false]; the result is (new object,
    [other] afterwards). *)
Definition program_t_move (other : program_t) : program_t * program_t :=
  (mk_program_t (handle_ other) (name_ other) (owning_ other),
   mk_program_t (handle_ other) (name_ other) false).

Section WithPlatform.
Context {W : Type} {P : Platform W}.

(** [program::detail_::identify(handle_t)] *)
Definition identify_handle (handle : handle_t) : string :=
  "program at " +++ ptr_as_hex handle.

(** [program::detail_::identify(handle_t, name)] *)
Definition identify_named (handle : handle_t) (name : string) : string :=
  "program " +++ name +++ " at " +++ ptr_as_hex handle.

(** [program::detail_::identify(const program_t&)] *)
Definition identify (program : program_t) : string :=
  identify_named (handle program) (name program).

(** [program_t::compilation_log]: the status of the second call is
    assigned and not looked at. *)
Definition compilation_log (this : program_t) : M W dynarray :=
  '(status, size) <- native_call_out (NvrtcGetProgramLogSize (handle_ this))
                       (nvrtcGetProgramLogSize (handle_ this)) ;;
  rtc_throw_if_error status "Failed obtaining NVRTC program log size" ;;
  let result := dynarray_of_size size in
  '(status, data) <- native_call_out (NvrtcGetProgramLog (handle_ this))
                       (nvrtcGetProgramLog (handle_ this)) ;;
  let result := written_into result data in
  ret result.

(** [program_t::ptx] *)
Definition ptx (this : program_t) : M W dynarray :=
  '(status, size) <- native_call_out (NvrtcGetPTXSize (handle_ this))
                       (nvrtcGetPTXSize (handle_ this)) ;;
  rtc_throw_if_error status
    ("Failed obtaining NVRTC program output PTX size for "
     +++ identify this) ;;
  let result := dynarray_of_size size in
  '(status, data) <- native_call_out (NvrtcGetPTX (handle_ this))
                       (nvrtcGetPTX (handle_ this)) ;;
  let result := written_into result data in
  rtc_throw_if_error status
    ("Failed obtaining NVRTC program output PTX for " +++ identify this) ;;
  ret result.

(** [program_t::has_ptx] *)
Definition has_ptx (this : program_t) : M W bool :=
  '(status, size) <- native_call_out (NvrtcGetPTXSize (handle_ this))
                       (nvrtcGetPTXSize (handle_ this)) ;;
  if status =? NVRTC_ERROR_INVALID_PROGRAM then ret false
  else
    rtc_throw_if_error status
      ("Failed determining whether the NVRTC program has a compiled PTX result: "
       +++ identify this) ;;
    if (size =? 0)%N then
      throw (std_logic_error
               ("PTX size reported as 0 by NVRTC for program: "
                +++ identify this))
    else ret true.

(** [program_t::cubin] (present from CUDA 11.1 on) *)
Definition cubin (this : program_t) : M W dynarray :=
  '(status, size) <- native_call_out (NvrtcGetCUBINSize (handle_ this))
                       (nvrtcGetCUBINSize (handle_ this)) ;;
  rtc_throw_if_error status
    "Failed obtaining NVRTC program output CUBIN size" ;;
  if (size =? 0)%N then
    throw (std_invalid_argument
             ("CUBIN requested for a CUDA program compiled for a virtual architecture: "
              +++ identify this))
  else
    let result := dynarray_of_size size in
    '(status, data) <- native_call_out (NvrtcGetCUBIN (handle_ this))
                         (nvrtcGetCUBIN (handle_ this)) ;;
    let result := written_into result data in
    rtc_throw_if_error status
      ("Failed obtaining NVRTC program output CUBIN for"
       +++ identify this) ;;
    ret result.

(** [program_t::has_cubin] *)
Definition has_cubin (this : program_t) : M W bool :=
  '(status, size) <- native_call_out (NvrtcGetCUBINSize (handle_ this))
                       (nvrtcGetCUBINSize (handle_ this)) ;;
  if status =? NVRTC_ERROR_INVALID_PROGRAM then ret false
  else
    rtc_throw_if_error status
      ("Failed determining whether the NVRTC program has a compiled CUBIN result: "
       +++ identify this) ;;
    ret (0 <? size)%N.

(** [program_t::nvvm] (present from CUDA 11.4 on) *)
Definition nvvm (this : program_t) : M W dynarray :=
  '(status, size) <- native_call_out (NvrtcGetNVVMSize (handle_ this))
                       (nvrtcGetNVVMSize (handle_ this)) ;;
  rtc_throw_if_error status
    "Failed obtaining NVRTC program output NVVM size" ;;
  let result := dynarray_of_size size in
  '(status, data) <- native_call_out (NvrtcGetNVVM (handle_ this))
                       (nvrtcGetNVVM (handle_ this)) ;;
  let result := written_into result data in
  rtc_throw_if_error status "Failed obtaining NVRTC program output NVVM" ;;
  ret result.

(** [program_t::has_nvvm] *)
Definition has_nvvm (this : program_t) : M W bool :=
  '(status, size) <- native_call_out (NvrtcGetNVVMSize (handle_ this))
                       (nvrtcGetNVVMSize (handle_ this)) ;;
  if status =? NVRTC_ERROR_INVALID_PROGRAM then ret false
  else
    rtc_throw_if_error status
      ("Failed determining whether the NVRTC program has a compiled NVVM result: "
       +++ identify this) ;;
    if (size =? 0)%N then
      throw (std_logic_error
               ("NVVM size reported as 0 by NVRTC for program: "
                +++ identify this))
    else ret true.

(** [program_t::get_mangling_of] *)
Definition get_mangling_of (this : program_t) (unmangled_name : string)
  : M W string :=
  '(status, result) <-
     native_call_out (NvrtcGetLoweredName (handle_ this) unmangled_name)
       (nvrtcGetLoweredName (handle_ this) unmangled_name) ;;
  rtc_throw_if_error status
    ("Failed obtaining the mangled form of name " +++ double_quote
     +++ unmangled_name +++ double_quote
     +++ " in dynamically-compiled program " +++ double_quote
     +++ name_ this +++ double_quote) ;;
  ret result.

(** [program_t::compile(span options) const]; the other
    [compile] and [compile_for] overloads marshal their options and
    end here.  The option count passed along is the size of the span. *)
Definition compile (this : program_t) (options : list string) : M W unit :=
  status <- native_call_ (NvrtcCompileProgram (handle_ this) options)
              (nvrtcCompileProgram (handle_ this) options) ;;
  rtc_throw_if_error status
    ("Failed compiling program " +++ double_quote +++ name_ this
     +++ double_quote).

(** [program_t::register_name_for_lookup(unmangled_name)].  The method is
    not const: the value returned is the object after the call. *)
Definition register_name_for_lookup (this : program_t)
    (unmangled_name : string) : M W program_t :=
  status <- native_call_ (NvrtcAddNameExpression (handle_ this) unmangled_name)
              (nvrtcAddNameExpression (handle_ this) unmangled_name) ;;
  rtc_throw_if_error status
    ("Failed registering a mangled name with program " +++ double_quote
     +++ name_ this +++ double_quote) ;;
  ret this.

(** [program_t(program_name, cuda_source, num_headers, header_names,
    header_sources)]: the public constructor. *)
Definition program_t_ctor (program_name cuda_source : string)
    (num_headers : Z) (header_names header_sources : list string)
  : M W program_t :=
  '(status, handle) <-
     native_call_out
       (NvrtcCreateProgram cuda_source program_name num_headers
          header_sources header_names)
       (nvrtcCreateProgram cuda_source program_name num_headers
          header_sources header_names) ;;
  let this := mk_program_t handle program_name true in
  rtc_throw_if_error status
    ("Failed creating an NVRTC program (named " +++ name_ this +++ ")") ;;
  ret this.

(** [program_t::~program_t] *)
Definition program_t_dtor (this : program_t) : M W unit :=
  if owning_ this then
    status <- native_call_ (NvrtcDestroyProgram (handle_ this))
                (nvrtcDestroyProgram (handle_ this)) ;;
    rtc_throw_if_error status "Destroying an NVRTC program"
  else ret tt.

(** [program::create(program_name, cuda_source, span header_names,
    span header_sources)] *)
Definition create_with_spans (program_name cuda_source : string)
    (header_names header_sources : list string) : M W program_t :=
  program_t_ctor program_name cuda_source
    (Z.of_nat (List.length header_names)) header_names header_sources.

(** [program::create(program_name, cuda_source, header_names_start,
    header_names_end, header_sources_start)]: the two ranges are given
    as the lists they denote. *)
Definition create_with_iterators (program_name cuda_source : string)
    (header_names_range header_sources_range : list string)
  : M W program_t :=
  let num_headers := List.length header_names_range in
  let header_names := firstn num_headers header_names_range in
  let header_sources := firstn num_headers header_sources_range in
  program_t_ctor cuda_source program_name (Z.of_nat num_headers)
    header_names header_sources.

(** [program::create_(program_name, cuda_source, headers_start,
    headers_end)]: a range of (name, source) pairs. *)
Definition create_ (program_name cuda_source : string)
    (headers : list (string * string)) : M W program_t :=
  let num_headers := List.length headers in
  let header_names := map fst headers in
  let header_sources := map snd headers in
  program_t_ctor cuda_source program_name (Z.of_nat num_headers)
    header_names header_sources.

(** The overload of [program::create] taking a container of headers is
    not embedded: its body calls [create] with four arguments (two strings
    and two iterators), which none of the overloads accepts. *)

(** [program::create(program_name, cuda_source)] *)
Definition create (program_name cuda_source : string) : M W program_t :=
  program_t_ctor program_name cuda_source 0 [] [].

End WithPlatform.

End Program.

(* ===================================================================== *)
(** * kernel.hpp *)
(* ===================================================================== *)

Module Kernel.

(** [class kernel_t]: its data members.  There is no ownership flag: the
    class is a non-owning wrapper. *)
Record kernel_t : Type := mk_kernel_t {
  device_id_ : device_id_t;
  context_handle_ : handle_t;
  handle_ : handle_t
}.

(** Modelled from the spec: [grid::complete_dimensions_t] of
    [cuda/api/types.hpp], which is not among the three files.  Section
    4.5: "output typing (distinct semantic types for a grid dimension
    count vs. a block dimension count, preventing accidental
    transposition)"; the occupancy functions build it from the pair
    (minimum number of blocks, block size), in this order. *)
Record complete_dimensions_t : Type := mk_complete_dimensions_t {
  grid : Z;      (* grid::dimension_t: a number of blocks *)
  block : Z      (* grid::block_dimension_t: a number of threads *)
}.

(** [kernel_t(device_id, context_handle, handle)] (protected) and
    [kernel::wrap] *)
Definition kernel_t_ctor (device_id : device_id_t)
    (context_handle handle : handle_t) : kernel_t :=
  mk_kernel_t device_id context_handle handle.

Definition wrap (device_id : device_id_t) (context_id f : handle_t)
  : kernel_t :=
  kernel_t_ctor device_id context_id f.

(** [kernel_t(const kernel_t&) = default]: member-wise copy; the result
    is (new object, [other] afterwards). *)
Definition kernel_t_copy (other : kernel_t) : kernel_t * kernel_t :=
  (mk_kernel_t (device_id_ other) (context_handle_ other) (handle_ other),
   other).

(** Getters. *)
Definition device_id (this : kernel_t) : device_id_t := device_id_ this.
Definition context_handle (this : kernel_t) : handle_t := context_handle_ this.
Definition handle (this : kernel_t) : handle_t := handle_ this.

(** [kernel::detail_::attribute_name] (debug builds): the table of
    [CUfunction_attribute] descriptions. *)
Definition attribute_names : list string := [
  "Maximum number of threads per block";
  "Statically-allocated shared memory size in bytes";
  "Required constant memory size in bytes";
  "Required local memory size in bytes";
  "Number of registers used by each thread";
  "PTX virtual architecture version into which the kernel code was compiled";
  "Binary architecture version for which the function was compiled";
  "Indication whether the function was compiled with cache mode CA";
  "Maximum allowed size of dynamically-allocated shared memory use size bytes";
  "Preferred shared memory carve-out to actual shared memory"
].

Definition attribute_name (attribute_index : Z) : string :=
  nth (Z.to_nat attribute_index) attribute_names EmptyString.

Section WithPlatform.
Context {W : Type} {P : Platform W}.

(** [kernel::detail_::get_attribute_in_current_context] *)
Definition get_attribute_in_current_context (handle : handle_t)
    (attribute : Z) : M W Z :=
  '(result, attribute_value) <-
     native_call_out (CuFuncGetAttribute attribute handle)
       (cuFuncGetAttribute attribute handle) ;;
  throw_if_error result
    ("Failed obtaining attribute " +++ attribute_name attribute) ;;
  ret attribute_value.

(** [kernel_t::get_attribute] *)
Definition get_attribute (this : kernel_t) (attribute : Z) : M W Z :=
  scoped_override_t (context_handle_ this)
    (get_attribute_in_current_context (handle this) attribute).

(** [kernel_t::maximum_threads_per_block]: the [int] attribute is
    returned as a [grid::block_dimension_t]. *)
Definition maximum_threads_per_block (this : kernel_t) : M W Z :=
  v <- get_attribute this CU_FUNC_ATTRIBUTE_MAX_THREADS_PER_BLOCK ;;
  ret (to_unsigned v).

(** [kernel_t::set_cache_preference].  The method is not const: the
    value returned is the object after the call. *)
Definition set_cache_preference (this : kernel_t) (preference : Z)
  : M W kernel_t :=
  scoped_override_t (context_handle_ this) (
    result <- native_call_ (CuFuncSetCacheConfig (handle this) preference)
                (cuFuncSetCacheConfig (handle this) preference) ;;
    throw_if_error result
      ("Setting the multiprocessor L1/Shared Memory cache distribution preference for a "
       +++ "CUDA device function")) ;;
  ret this.

(** [kernel_t::set_shared_memory_bank_size].  Not const either. *)
Definition set_shared_memory_bank_size (this : kernel_t) (config : Z)
  : M W kernel_t :=
  scoped_override_t (context_handle_ this) (
    result <- native_call_ (CuFuncSetSharedMemConfig (handle this) config)
                (cuFuncSetSharedMemConfig (handle this) config) ;;
    throw_if_error result "Failed setting the shared memory bank size") ;;
  ret this.

(** [kernel::occupancy::detail_::min_grid_params_for_max_occupancy] *)
Definition detail_min_grid_params_for_max_occupancy
    (kernel_handle : handle_t) (device_id : device_id_t)
    (determine_shared_mem_by_block_size : option (Z -> N))
    (fixed_shared_mem_size : N) (block_size_limit : Z)
    (disable_caching_override : bool) : M W complete_dimensions_t :=
  if CUDART_VERSION <=? 10000 then
    throw (cuda_runtime_error status_not_yet_implemented EmptyString)
  else
    let limit := to_int block_size_limit in
    let flags := if disable_caching_override
                 then CU_OCCUPANCY_DISABLE_CACHING_OVERRIDE
                 else CU_OCCUPANCY_DEFAULT in
    '(result, (min_grid_size_in_blocks, block_size)) <-
       native_call_out
         (CuOccupancyMaxPotentialBlockSizeWithFlags kernel_handle
            determine_shared_mem_by_block_size fixed_shared_mem_size
            limit flags)
         (cuOccupancyMaxPotentialBlockSizeWithFlags kernel_handle
            determine_shared_mem_by_block_size fixed_shared_mem_size
            limit flags) ;;
    throw_if_error result
      ("Failed obtaining parameters for a minimum-size grid for "
       +++ kernel_identify kernel_handle device_id
       +++ " with maximum occupancy given dynamic shared memory and block size data") ;;
    ret (mk_complete_dimensions_t (to_unsigned min_grid_size_in_blocks)
           (to_unsigned block_size)).

(** [kernel::occupancy::min_grid_params_for_max_occupancy(kernel,
    dynamic_shared_memory_size, block_size_limit,
    disable_caching_override)] *)
Definition min_grid_params_for_max_occupancy (kernel : kernel_t)
    (dynamic_shared_memory_size : N) (block_size_limit : Z)
    (disable_caching_override : bool) : M W complete_dimensions_t :=
  detail_min_grid_params_for_max_occupancy
    (handle kernel) (device_id kernel) None
    dynamic_shared_memory_size block_size_limit disable_caching_override.

(** [kernel::occupancy::min_grid_params_for_max_occupancy(kernel,
    shared_memory_size_determiner, block_size_limit,
    disable_caching_override)] *)
Definition min_grid_params_for_max_occupancy_determiner
    (kernel : kernel_t) (shared_memory_size_determiner : Z -> N)
    (block_size_limit : Z) (disable_caching_override : bool)
  : M W complete_dimensions_t :=
  let ignored_fixed_dynamic_shared_mem_size := 0%N in
  detail_min_grid_params_for_max_occupancy
    (handle kernel) (device_id kernel) (Some shared_memory_size_determiner)
    ignored_fixed_dynamic_shared_mem_size block_size_limit
    disable_caching_override.

(** The two [kernel_t::min_grid_params_for_max_occupancy] members. *)
Definition kernel_t_min_grid_params_for_max_occupancy (this : kernel_t)
    (dynamic_shared_memory_size : N) (block_size_limit : Z)
    (disable_caching_override : bool) : M W complete_dimensions_t :=
  min_grid_params_for_max_occupancy this dynamic_shared_memory_size
    block_size_limit disable_caching_override.

Definition kernel_t_min_grid_params_for_max_occupancy_determiner
    (this : kernel_t) (shared_memory_size_determiner : Z -> N)
    (block_size_limit : Z) (disable_caching_override : bool)
  : M W complete_dimensions_t :=
  min_grid_params_for_max_occupancy_determiner this
    shared_memory_size_determiner block_size_limit
    disable_caching_override.

(** The rest of the section needs two things that [kernel.hpp] uses and
    that are declared elsewhere: the body of [kernel_t::set_attribute]
    (declared above, defined in another header), and the width in bits of
    the unsigned type [cuda::memory::shared::size_t]. *)
Section SetAttribute.
Variable set_attribute : kernel_t -> Z -> Z -> M W unit.
Variable shared_size_bits : Z.

(** Conversion of an [int] to [cuda::memory::shared::size_t]. *)
Definition to_shared_size (z : Z) : Z := z mod 2 ^ shared_size_bits.

(** [kernel_t::set_maximum_dynamic_shared_memory_per_block] *)
Definition set_maximum_dynamic_shared_memory_per_block (this : kernel_t)
    (amount_required_by_kernel : Z) : M W unit :=
  let amount_required_by_kernel_ := to_int amount_required_by_kernel in
  if negb (amount_required_by_kernel
           =? to_shared_size amount_required_by_kernel_)
  then throw (std_invalid_argument
                ("Requested amount of maximum shared memory exceeds the "
                 +++ "representation range for kernel attribute values"))
  else set_attribute this CU_FUNC_ATTRIBUTE_MAX_DYNAMIC_SHARED_SIZE_BYTES
         amount_required_by_kernel_.

End SetAttribute.

End WithPlatform.

End Kernel.

(* ===================================================================== *)
(** * What the class definitions declare *)
(* ===================================================================== *)

(** The three proxy classes. *)
Inductive proxy_class : Type :=
| class_event_t
| class_program_t
| class_kernel_t.

(** How a class declares a special member function. *)
Inductive special_member : Type :=
| user_provided
| defaulted
| deleted.

(** The copy constructor of each class, as declared:
    [event_t(const event_t& other) noexcept : event_t(...) { }],
    [program_t(const program_t&) = delete],
    [kernel_t(const kernel_t& other) = default]. *)
Definition copy_constructor (c : proxy_class) : special_member :=
  match c with
  | class_event_t => user_provided
  | class_program_t => deleted
  | class_kernel_t => defaulted
  end.

(** An object of the class can be copy-constructed. *)
Definition copy_constructible (c : proxy_class) : bool :=
  match copy_constructor c with
  | deleted => false
  | _ => true
  end.

(** The member functions that change the native resource and not the
    proxy: those under "other mutator methods" in [event_t], under
    "mutators of the program, but not of this wrapper class" in
    [program_t], and under "methods mutating the kernel-in-context, but
    not this reference object" in [kernel_t]. *)
Inductive resource_mutator : Type :=
| event_t_record
| event_t_synchronize
| program_t_compile
| program_t_register_name_for_lookup
| kernel_t_set_attribute
| kernel_t_set_maximum_dynamic_shared_memory_per_block
| kernel_t_set_cache_preference
| kernel_t_set_shared_memory_bank_size.

(** Whether the declaration of the member function ends in [const]. *)
Definition const_qualified (m : resource_mutator) : bool :=
  match m with
  | event_t_record => true
  | event_t_synchronize => true
  | program_t_compile => true
  | program_t_register_name_for_lookup => false
  | kernel_t_set_attribute => true
  | kernel_t_set_maximum_dynamic_shared_memory_per_block => true
  | kernel_t_set_cache_preference => false
  | kernel_t_set_shared_memory_bank_size => false
  end.

(* ===================================================================== *)
(** * Reading the log of native calls *)
(* ===================================================================== *)

Definition is_event_release (event : handle_t) (c : native_call) : bool :=
  match c with
  | CuEventDestroy e => e =? event
  | _ => false
  end.

Definition is_program_release (prog : handle_t) (c : native_call) : bool :=
  match c with
  | NvrtcDestroyProgram p => p =? prog
  | _ => false
  end.

(** How many times [log] asks the platform to release the event, or the
    program. *)
Definition event_releases (event : handle_t) (log : list native_call) : nat :=
  List.length (filter (is_event_release event) log).

Definition program_releases (prog : handle_t) (log : list native_call) : nat :=
  List.length (filter (is_program_release prog) log).

(** Calls that transfer artifact data to the caller. *)
Definition is_fetch (c : native_call) : bool :=
  match c with
  | NvrtcGetPTX _ | NvrtcGetCUBIN _ | NvrtcGetNVVM _ | NvrtcGetProgramLog _ =>
      true
  | _ => false
  end.

(* ===================================================================== *)
(** * A reference platform *)
(* ===================================================================== *)

(** A small executable platform, used to run the wrappers on concrete
    inputs.  Events are idle, pending or occurred as in section 4.3 of the
    design (an event that was never recorded reads as occurred); a program
    has artifacts once it was compiled; after [shut_down] every entry point
    reports a failure and changes nothing. *)
Module Sim.

Record artifacts : Type := mk_artifacts {
  art_ptx : list byte;
  art_cubin : list byte;
  art_nvvm : list byte;
  art_log : list byte
}.

Record program_state : Type := mk_program_state {
  source : string;
  registered : list string;
  compiled : option artifacts
}.

Record world : Type := mk_world {
  down : bool;                               (* the platform was shut down *)
  next_handle : handle_t;
  events : list (handle_t * bool);           (* live events; [true] = pending *)
  programs : list (handle_t * program_state) (* live programs *)
}.

Definition initial : world := mk_world false 4096 [] [].

Definition shut_down (w : world) : world :=
  mk_world true (next_handle w) (events w) (programs w).

Definition CUDA_ERROR_DEINITIALIZED : status_t := 4.
Definition CUDA_ERROR_INVALID_HANDLE : status_t := 400.
Definition NVRTC_ERROR_NAME_EXPRESSION_NOT_VALID : status_t := 10.
Definition NVRTC_ERROR_INTERNAL_ERROR : status_t := 11.

Fixpoint lookup {A : Type} (h : handle_t) (l : list (handle_t * A))
  : option A :=
  match l with
  | [] => None
  | (k, a) :: l' => if k =? h then Some a else lookup h l'
  end.

Fixpoint remove {A : Type} (h : handle_t) (l : list (handle_t * A))
  : list (handle_t * A) :=
  match l with
  | [] => []
  | (k, a) :: l' => if k =? h then remove h l' else (k, a) :: remove h l'
  end.

Definition update {A : Type} (h : handle_t) (a : A)
    (l : list (handle_t * A)) : list (handle_t * A) :=
  (h, a) :: remove h l.

Definition with_events (w : world) (es : list (handle_t * bool)) : world :=
  mk_world (down w) (next_handle w) es (programs w).

Definition with_programs (w : world)
    (ps : list (handle_t * program_state)) : world :=
  mk_world (down w) (next_handle w) (events w) ps.

(** *** Events *)

Definition sim_cuEventCreate (flags : Z) (w : world)
  : status_t * handle_t * world :=
  if down w then (CUDA_ERROR_DEINITIALIZED, 0, w)
  else
    let h := next_handle w in
    (CUDA_SUCCESS, h,
     mk_world false (h + 8) ((h, false) :: events w) (programs w)).

Definition sim_cuEventRecord (event stream : handle_t) (w : world)
  : status_t * world :=
  if down w then (CUDA_ERROR_DEINITIALIZED, w)
  else
    match lookup event (events w) with
    | Some _ => (CUDA_SUCCESS, with_events w (update event true (events w)))
    | None => (CUDA_ERROR_INVALID_HANDLE, w)
    end.

Definition sim_cuEventQuery (event : handle_t) (w : world)
  : status_t * world :=
  if down w then (CUDA_ERROR_DEINITIALIZED, w)
  else
    match lookup event (events w) with
    | Some true => (CUDA_ERROR_NOT_READY, w)
    | Some false => (CUDA_SUCCESS, w)
    | None => (CUDA_ERROR_INVALID_HANDLE, w)
    end.

(** Waiting for a pending event lets the device reach it. *)
Definition sim_cuEventSynchronize (event : handle_t) (w : world)
  : status_t * world :=
  if down w then (CUDA_ERROR_DEINITIALIZED, w)
  else
    match lookup event (events w) with
    | Some _ => (CUDA_SUCCESS, with_events w (update event false (events w)))
    | None => (CUDA_ERROR_INVALID_HANDLE, w)
    end.

Definition sim_cuEventDestroy (event : handle_t) (w : world)
  : status_t * world :=
  if down w then (CUDA_ERROR_DEINITIALIZED, w)
  else
    match lookup event (events w) with
    | Some _ => (CUDA_SUCCESS, with_events w (remove event (events w)))
    | None => (CUDA_ERROR_INVALID_HANDLE, w)
    end.

(** *** Kernels: every kernel runs with at most 1024 threads per block *)

Definition max_threads : Z := 1024.

Definition sim_cuFuncGetAttribute (attribute : Z) (f : handle_t) (w : world)
  : status_t * Z * world :=
  if down w then (CUDA_ERROR_DEINITIALIZED, 0, w)
  else if attribute =? CU_FUNC_ATTRIBUTE_MAX_THREADS_PER_BLOCK
       then (CUDA_SUCCESS, max_threads, w)
       else (CUDA_SUCCESS, 0, w).

Definition sim_cuFuncSet (f : handle_t) (config : Z) (w : world)
  : status_t * world :=
  if down w then (CUDA_ERROR_DEINITIALIZED, w) else (CUDA_SUCCESS, w).

Definition sim_cuOccupancyMaxPotentialBlockSizeWithFlags (f : handle_t)
    (b2d : option (Z -> N)) (smem : N) (limit flags : Z) (w : world)
  : status_t * (Z * Z) * world :=
  if down w then (CUDA_ERROR_DEINITIALIZED, (0, 0), w)
  else
    let block_size :=
      if limit =? 0 then max_threads
      else if 0 <? limit then Z.min limit max_threads
      else 0 in
    (CUDA_SUCCESS, (160, block_size), w).

(** *** Programs *)

Definition sim_nvrtcCreateProgram (src name : string) (numHeaders : Z)
    (headers includeNames : list string) (w : world)
  : status_t * handle_t * world :=
  if down w then (NVRTC_ERROR_INTERNAL_ERROR, 0, w)
  else
    let h := next_handle w in
    (NVRTC_SUCCESS, h,
     mk_world false (h + 8) (events w)
       ((h, mk_program_state src [] None) :: programs w)).

Definition sim_nvrtcDestroyProgram (prog : handle_t) (w : world)
  : status_t * world :=
  if down w then (NVRTC_ERROR_INTERNAL_ERROR, w)
  else
    match lookup prog (programs w) with
    | Some _ => (NVRTC_SUCCESS, with_programs w (remove prog (programs w)))
    | None => (NVRTC_ERROR_INVALID_PROGRAM, w)
    end.

(** Compilation: the PTX and the NVVM IR are the source text and a NUL;
    there is a binary only when a real architecture is asked for. *)
Definition real_architecture : string := "--gpu-architecture=sm_80".

Definition compile_source (src : string) (options : list string)
  : artifacts :=
  mk_artifacts
    (list_byte_of_string src ++ [x00])
    (if existsb (String.eqb real_architecture) options
     then [x7f; x45; x4c; x46] else [])
    (list_byte_of_string src ++ [x00])
    [x00].

Definition sim_nvrtcCompileProgram (prog : handle_t)
    (options : list string) (w : world) : status_t * world :=
  if down w then (NVRTC_ERROR_INTERNAL_ERROR, w)
  else
    match lookup prog (programs w) with
    | Some p =>
        (NVRTC_SUCCESS,
         with_programs w
           (update prog
              (mk_program_state (source p) (registered p)
                 (Some (compile_source (source p) options)))
              (programs w)))
    | None => (NVRTC_ERROR_INVALID_PROGRAM, w)
    end.

Definition sim_nvrtcAddNameExpression (prog : handle_t) (name : string)
    (w : world) : status_t * world :=
  if down w then (NVRTC_ERROR_INTERNAL_ERROR, w)
  else
    match lookup prog (programs w) with
    | Some p =>
        (NVRTC_SUCCESS,
         with_programs w
           (update prog
              (mk_program_state (source p) (name :: registered p)
                 (compiled p))
              (programs w)))
    | None => (NVRTC_ERROR_INVALID_PROGRAM, w)
    end.

Definition sim_nvrtcGetLoweredName (prog : handle_t) (name : string)
    (w : world) : status_t * string * world :=
  if down w then (NVRTC_ERROR_INTERNAL_ERROR, EmptyString, w)
  else
    match lookup prog (programs w) with
    | Some (mk_program_state _ names (Some _)) =>
        if existsb (String.eqb name) names
        then (NVRTC_SUCCESS, "_Z" +++ name, w)
        else (NVRTC_ERROR_NAME_EXPRESSION_NOT_VALID, EmptyString, w)
    | _ => (NVRTC_ERROR_INVALID_PROGRAM, EmptyString, w)
    end.

(** The artifact named by [select] of a compiled program. *)
Definition artifact (select : artifacts -> list byte) (prog : handle_t)
    (w : world) : option (list byte) :=
  match lookup prog (programs w) with
  | Some (mk_program_state _ _ (Some a)) => Some (select a)
  | _ => None
  end.

Definition sim_size (select : artifacts -> list byte) (prog : handle_t)
    (w : world) : status_t * size_t * world :=
  if down w then (NVRTC_ERROR_INTERNAL_ERROR, 0%N, w)
  else
    match artifact select prog w with
    | Some data => (NVRTC_SUCCESS, N.of_nat (List.length data), w)
    | None => (NVRTC_ERROR_INVALID_PROGRAM, 0%N, w)
    end.

Definition sim_data (select : artifacts -> list byte) (prog : handle_t)
    (w : world) : status_t * list byte * world :=
  if down w then (NVRTC_ERROR_INTERNAL_ERROR, [], w)
  else
    match artifact select prog w with
    | Some data => (NVRTC_SUCCESS, data, w)
    | None => (NVRTC_ERROR_INVALID_PROGRAM, [], w)
    end.

(** *** Text helpers *)

Definition hex (h : handle_t) : string :=
  "0x" +++ HexadecimalString.NilZero.string_of_uint (N.to_hex_uint (Z.to_N h)).

#[global] Instance platform : Platform world := {|
  CUDART_VERSION := 11040;
  cuEventCreate := sim_cuEventCreate;
  cuEventRecord := sim_cuEventRecord;
  cuEventQuery := sim_cuEventQuery;
  cuEventSynchronize := sim_cuEventSynchronize;
  cuEventDestroy := sim_cuEventDestroy;
  cuFuncGetAttribute := sim_cuFuncGetAttribute;
  cuFuncSetCacheConfig := sim_cuFuncSet;
  cuFuncSetSharedMemConfig := sim_cuFuncSet;
  cuOccupancyMaxPotentialBlockSizeWithFlags :=
    sim_cuOccupancyMaxPotentialBlockSizeWithFlags;
  nvrtcCreateProgram := sim_nvrtcCreateProgram;
  nvrtcDestroyProgram := sim_nvrtcDestroyProgram;
  nvrtcCompileProgram := sim_nvrtcCompileProgram;
  nvrtcAddNameExpression := sim_nvrtcAddNameExpression;
  nvrtcGetLoweredName := sim_nvrtcGetLoweredName;
  nvrtcGetProgramLogSize := sim_size art_log;
  nvrtcGetProgramLog := sim_data art_log;
  nvrtcGetPTXSize := sim_size art_ptx;
  nvrtcGetPTX := sim_data art_ptx;
  nvrtcGetCUBINSize := sim_size art_cubin;
  nvrtcGetCUBIN := sim_data art_cubin;
  nvrtcGetNVVMSize := sim_size art_nvvm;
  nvrtcGetNVVM := sim_data art_nvvm;
  status_not_yet_implemented := 31;
ptr_as_hex := hex;
  event_identify := fun h => "event " +++ hex h;
  event_identify_full := fun h c d =>
    "event " +++ hex h +++ " in context " +++ hex c
    +++ " on device " +++ hex d;
  stream_identify := fun h => "stream " +++ hex h;
  kernel_identify := fun h d => "kernel " +++ hex h +++ " on device " +++ hex d
|}.

(** A thread that starts on world [w] with no context installed. *)
Definition thread (w : world) : thread_state world :=
  mk_thread_state w [] [].

End Sim.

(* ===================================================================== *)
(** * What the wrappers rely on from the platform *)
(* ===================================================================== *)

(** The wrappers forward to the platform; what the design promises about
    their results rests on the platform's documented behaviour, stated
    here as properties of a [Platform]. *)
Section Contracts.
Context {W : Type} {P : Platform W}.

(** An event that was created and never recorded reads as occurred
    (sections 3 and 8 of the design; the comment of
    [event_t::has_occurred]). *)
Definition unrecorded_event_reads_as_occurred : Prop :=
  forall (flags : Z) (w : W),
    fst (fst (cuEventCreate flags w)) = CUDA_SUCCESS ->
    fst (cuEventQuery (snd (fst (cuEventCreate flags w)))
           (snd (cuEventCreate flags w))) = CUDA_SUCCESS.

(** Querying an event is a read of the platform's state. *)
Definition event_query_is_read_only : Prop :=
  forall (event : handle_t) (w : W), snd (cuEventQuery event w) = w.

(** The occupancy heuristic: on success the block size is a non-negative
    [int], at most the limit when a limit is given ([blockSizeLimit > 0]),
    and at most the kernel's maximum number of threads per block (as
    [cuFuncGetAttribute] reports it in the same world) when there is no
    limit ([blockSizeLimit = 0]). *)
Definition occupancy_contract : Prop :=
  forall (f : handle_t) (b2d : option (Z -> N)) (smem : N) (limit flags : Z)
         (w : W),
    let answer := cuOccupancyMaxPotentialBlockSizeWithFlags
                    f b2d smem limit flags w in
    let block_size := snd (snd (fst answer)) in
    fst (fst answer) = CUDA_SUCCESS ->
    0 <= block_size < 2 ^ 31 /\
    (0 < limit -> block_size <= limit) /\
    (limit = 0 ->
     let attribute :=
       cuFuncGetAttribute CU_FUNC_ATTRIBUTE_MAX_THREADS_PER_BLOCK f w in
     fst (fst attribute) = CUDA_SUCCESS ->
     block_size <= snd (fst attribute) < 2 ^ 31).

(** Client code reading the thread's current context. *)
Definition observe_current_context : M W (option handle_t) :=
  fun st => (Returned (current_context st), st).

(** A computation that leaves the thread's context stack as it found it,
    whether it returns or throws. *)
Definition context_neutral {A : Type} (m : M W A) : Prop :=
  forall st : thread_state W, context_stack (snd (m st)) = context_stack st.

End Contracts.

(* ===================================================================== *)
(** * Client code *)
(* ===================================================================== *)

(** Ways of using the proxies, written the way a caller would: they serve
    to state how the operations of the three files compose. *)
Section Client.
Context {W : Type} {P : Platform W}.

(** A computation that asks for no release, of an event or of a program,
    whether it returns or throws. *)
Definition releases_nothing {A : Type} (m : M W A) : Prop :=
  forall (st : thread_state W) (h : handle_t),
    event_releases h (calls (snd (m st))) = event_releases h (calls st) /\
    program_releases h (calls (snd (m st))) = program_releases h (calls st).






(** The size queries and the fetches of artifacts are reads of the
    platform's state. *)
Definition artifact_calls_are_read_only : Prop :=
  forall (prog : handle_t) (w : W),
    snd (nvrtcGetPTXSize prog w) = w /\ snd (nvrtcGetPTX prog w) = w /\
    snd (nvrtcGetCUBINSize prog w) = w /\ snd (nvrtcGetCUBIN prog w) = w /\
    snd (nvrtcGetNVVMSize prog w) = w /\ snd (nvrtcGetNVVM prog w) = w.

End Client.


(** The reference platform seen through a CUDA runtime of version 10.0,
    which lacks the occupancy heuristic. *)
Definition legacy_platform : Platform Sim.world := {|
  CUDART_VERSION := 10000;
  cuEventCreate := Sim.sim_cuEventCreate;
  cuEventRecord := Sim.sim_cuEventRecord;
  cuEventQuery := Sim.sim_cuEventQuery;
  cuEventSynchronize := Sim.sim_cuEventSynchronize;
  cuEventDestroy := Sim.sim_cuEventDestroy;
  cuFuncGetAttribute := Sim.sim_cuFuncGetAttribute;
  cuFuncSetCacheConfig := Sim.sim_cuFuncSet;
  cuFuncSetSharedMemConfig := Sim.sim_cuFuncSet;
  cuOccupancyMaxPotentialBlockSizeWithFlags :=
    Sim.sim_cuOccupancyMaxPotentialBlockSizeWithFlags;
  nvrtcCreateProgram := Sim.sim_nvrtcCreateProgram;
  nvrtcDestroyProgram := Sim.sim_nvrtcDestroyProgram;
  nvrtcCompileProgram := Sim.sim_nvrtcCompileProgram;
  nvrtcAddNameExpression := Sim.sim_nvrtcAddNameExpression;
  nvrtcGetLoweredName := Sim.sim_nvrtcGetLoweredName;
  nvrtcGetProgramLogSize := Sim.sim_size Sim.art_log;
  nvrtcGetProgramLog := Sim.sim_data Sim.art_log;
  nvrtcGetPTXSize := Sim.sim_size Sim.art_ptx;
  nvrtcGetPTX := Sim.sim_data Sim.art_ptx;
  nvrtcGetCUBINSize := Sim.sim_size Sim.art_cubin;
  nvrtcGetCUBIN := Sim.sim_data Sim.art_cubin;
  nvrtcGetNVVMSize := Sim.sim_size Sim.art_nvvm;
  nvrtcGetNVVM := Sim.sim_data Sim.art_nvvm;
  status_not_yet_implemented := 31;
  ptr_as_hex := Sim.hex;
  event_identify := @event_identify _ Sim.platform;
  event_identify_full := @event_identify_full _ Sim.platform;
  stream_identify := @stream_identify _ Sim.platform;
  kernel_identify := @kernel_identify _ Sim.platform
|}.

(** The reference platform with a compiler that emits no assembly and no
    intermediate representation: once a program is compiled, the size of
    either is reported as 0, with a success status. *)
Definition binary_only_platform : Platform Sim.world := {|
  CUDART_VERSION := 11040;
  cuEventCreate := Sim.sim_cuEventCreate;
  cuEventRecord := Sim.sim_cuEventRecord;
  cuEventQuery := Sim.sim_cuEventQuery;
  cuEventSynchronize := Sim.sim_cuEventSynchronize;
  cuEventDestroy := Sim.sim_cuEventDestroy;
  cuFuncGetAttribute := Sim.sim_cuFuncGetAttribute;
  cuFuncSetCacheConfig := Sim.sim_cuFuncSet;
  cuFuncSetSharedMemConfig := Sim.sim_cuFuncSet;
  cuOccupancyMaxPotentialBlockSizeWithFlags :=
    Sim.sim_cuOccupancyMaxPotentialBlockSizeWithFlags;
  nvrtcCreateProgram := Sim.sim_nvrtcCreateProgram;
  nvrtcDestroyProgram := Sim.sim_nvrtcDestroyProgram;
  nvrtcCompileProgram := Sim.sim_nvrtcCompileProgram;
  nvrtcAddNameExpression := Sim.sim_nvrtcAddNameExpression;
  nvrtcGetLoweredName := Sim.sim_nvrtcGetLoweredName;
  nvrtcGetProgramLogSize := Sim.sim_size Sim.art_log;
  nvrtcGetProgramLog := Sim.sim_data Sim.art_log;
  nvrtcGetPTXSize := Sim.sim_size (fun _ => []);
  nvrtcGetPTX := Sim.sim_data (fun _ => []);
  nvrtcGetCUBINSize := Sim.sim_size Sim.art_cubin;
  nvrtcGetCUBIN := Sim.sim_data Sim.art_cubin;
  nvrtcGetNVVMSize := Sim.sim_size (fun _ => []);
  nvrtcGetNVVM := Sim.sim_data (fun _ => []);
  status_not_yet_implemented := 31;
  ptr_as_hex := Sim.hex;
  event_identify := @event_identify _ Sim.platform;
  event_identify_full := @event_identify_full _ Sim.platform;
  stream_identify := @stream_identify _ Sim.platform;
  kernel_identify := @kernel_identify _ Sim.platform
|}.

(* ===================================================================== *)
(** * Properties *)
(* ===================================================================== *)

(** Unfolds the monad and the native-call shims. *)
Ltac run :=
  unfold bind, ret, throw, try_discard, native_call_, native_call_out,
    throw_if_error, rtc_throw_if_error, scoped_override_t,
    scoped_override_t_ctor, scoped_override_t_dtor, current_context;
  cbn [fst snd native calls context_stack].

Lemma event_releases_app (h : handle_t) (l1 l2 : list native_call) :
  event_releases h (l1 ++ l2) = (event_releases h l1 + event_releases h l2)%nat.
Proof.
  unfold event_releases. now rewrite filter_app, length_app.
Qed.

Lemma program_releases_app (h : handle_t) (l1 l2 : list native_call) :
  program_releases h (l1 ++ l2)
  = (program_releases h l1 + program_releases h l2)%nat.
Proof.
  unfold program_releases. now rewrite filter_app, length_app.
Qed.



Section Destructors.
Context {W : Type} {P : Platform W}.


(** [~program_t]: one release call when owning, nothing otherwise; the
    status of the release goes through [throw_if_error]. *)
Lemma program_t_dtor_spec (this : Program.program_t) (st : thread_state W) :
  Program.program_t_dtor this st =
  if Program.owning_ this
  then
    let status := fst (nvrtcDestroyProgram (Program.handle_ this) (native st)) in
    (if status =? NVRTC_SUCCESS then Returned tt
     else Thrown (rtc_runtime_error status "Destroying an NVRTC program"),
     mk_thread_state
       (snd (nvrtcDestroyProgram (Program.handle_ this) (native st)))
       (calls st ++ [NvrtcDestroyProgram (Program.handle_ this)])
       (context_stack st))
  else (Returned tt, st).
Proof.
  unfold Program.program_t_dtor. destruct (Program.owning_ this); [|reflexivity].
  run. destruct (nvrtcDestroyProgram _ _) as [status w]. cbn.
  now destruct (status =? NVRTC_SUCCESS).
Qed.

End Destructors.

(** ** Destruction *)


(** The program destructor issues the release call exactly when the proxy
    is owning. *)
Lemma program_destructor_releases_iff_owning
    {W : Type} {P : Platform W} (this : Program.program_t)
    (st : thread_state W) :
  calls (snd (Program.program_t_dtor this st)) =
    calls st ++ (if Program.owning_ this
                 then [NvrtcDestroyProgram (Program.handle this)] else []).
Proof.
  rewrite program_t_dtor_spec. unfold Program.handle.
  destruct (Program.owning_ this); cbn; [reflexivity | now rewrite app_nil_r].
Qed.

(** C1 (the code departs from it for programs).  The claim: the destructor
    of an event or of a program releases the native resource iff the proxy
    is owning, and a failure of the release is swallowed.  For events this
    is [event_destructor_releases_iff_owning_and_swallows].  For programs
    the release happens iff owning, but its failure is not swallowed: when
    [nvrtcDestroyProgram] reports a status other than [NVRTC_SUCCESS], the
    destructor of an owning [program_t] throws an [rtc::runtime_error]
    carrying that status. *)
Theorem program_destructor_raises_release_failure
    {W : Type} {P : Platform W} (this : Program.program_t)
    (st : thread_state W) :
  Program.owning_ this = true ->
  fst (nvrtcDestroyProgram (Program.handle this) (native st)) <> NVRTC_SUCCESS ->
  fst (Program.program_t_dtor this st) =
    Thrown (rtc_runtime_error
              (fst (nvrtcDestroyProgram (Program.handle this) (native st)))
              "Destroying an NVRTC program").
Proof.
  intros Hown Hfail. rewrite program_t_dtor_spec, Hown. cbn [fst].
  unfold Program.handle in *.
  destruct (Z.eqb_spec (fst (nvrtcDestroyProgram (Program.handle_ this) (native st)))
              NVRTC_SUCCESS); [contradiction | reflexivity].
Qed.

(** A program created on the reference platform, destroyed after the
    platform was shut down. *)
Lemma program_destructor_raises_release_failure_witness :
  let st := snd (Program.create "prog" "__global__ void k(){}"
                   (Sim.thread Sim.initial)) in
  let this := Program.mk_program_t 4096 "prog" true in
  let late := mk_thread_state (Sim.shut_down (native st)) (calls st)
                (context_stack st) in
  fst (Program.create "prog" "__global__ void k(){}" (Sim.thread Sim.initial))
    = Returned this /\
  fst (Program.program_t_dtor this late) =
    Thrown (rtc_runtime_error Sim.NVRTC_ERROR_INTERNAL_ERROR
              "Destroying an NVRTC program").
Proof.
  intros st this late. split; [reflexivity|].
  assert (Hown : Program.owning_ this = true) by reflexivity.
  assert (Hfail : fst (nvrtcDestroyProgram (Program.handle this) (native late))
                  <> NVRTC_SUCCESS) by (vm_compute; discriminate).
  exact (program_destructor_raises_release_failure this late Hown Hfail).
Defined.

(** ** Move construction *)




(** ** Copy construction *)

(** C3 as stated (copy construction is available on every proxy type) does
    not hold: the copy constructor of [program_t] is deleted. *)
Lemma copy_construction_is_not_available_on_every_proxy :
  ~ (forall c : proxy_class, copy_constructible c = true).
Proof.
  intros H. specialize (H class_program_t). discriminate H.
Qed.

(** C3, amended.  Copy construction is available on [event_t] and
    [kernel_t] and is deleted for [program_t].  A copy of an event [x],
    owning or not, has the handle, the device id and the context handle of
    [x] and is not owning, and [x] is as it was; a copy of a kernel (a
    class without an ownership flag) has the same three fields. *)
Theorem copy_yields_a_non_owning_alias :
  (forall c : proxy_class,
      copy_constructible c = true <-> c <> class_program_t) /\
  (forall x : Event.event_t,
      let copy := fst (Event.event_t_copy x) in
      Event.handle copy = Event.handle x /\
      Event.device_id copy = Event.device_id x /\
      Event.context_handle copy = Event.context_handle x /\
      Event.is_owning copy = false /\
      snd (Event.event_t_copy x) = x) /\
  (forall k : Kernel.kernel_t,
      let copy := fst (Kernel.kernel_t_copy k) in
      Kernel.handle copy = Kernel.handle k /\
      Kernel.device_id copy = Kernel.device_id k /\
      Kernel.context_handle copy = Kernel.context_handle k /\
      snd (Kernel.kernel_t_copy k) = k).
Proof.
  split; [|split].
  - intros c. destruct c; cbn; split; intros H; congruence.
  - intros x. cbn. repeat split.
  - intros k. cbn. repeat split.
Qed.

(** ** Context discipline *)

Section ContextDiscipline.
Context {W : Type} {P : Platform W}.

Lemma ret_neutral {A : Type} (a : A) : context_neutral (W := W) (ret a).
Proof. intros st. reflexivity. Qed.

Lemma throw_neutral {A : Type} (e : exception) :
  context_neutral (W := W) (A := A) (throw e).
Proof. intros st. reflexivity. Qed.

Lemma bind_neutral {A B : Type} (m : M W A) (k : A -> M W B) :
  context_neutral m -> (forall a, context_neutral (k a)) ->
  context_neutral (bind m k).
Proof.
  intros Hm Hk st. unfold bind. specialize (Hm st).
  destruct (m st) as [[a|e] st1]; cbn [snd] in *.
  - now rewrite Hk.
  - exact Hm.
Qed.

Lemma try_discard_neutral {A : Type} (m : M W A) :
  context_neutral m -> context_neutral (try_discard m).
Proof. intros Hm st. exact (Hm st). Qed.

Lemma native_call_neutral (c : native_call) (f : W -> status_t * W) :
  context_neutral (native_call_ c f).
Proof.
  intros st. unfold native_call_. now destruct (f (native st)).
Qed.

Lemma native_call_out_neutral {A : Type} (c : native_call)
    (f : W -> status_t * A * W) :
  context_neutral (native_call_out c f).
Proof.
  intros st. unfold native_call_out. now destruct (f (native st)) as [[? ?] ?].
Qed.

Lemma throw_if_error_neutral (status : status_t) (message : string) :
  context_neutral (W := W) (throw_if_error status message).
Proof.
  intros st. unfold throw_if_error. now destruct (status =? CUDA_SUCCESS).
Qed.

(** The override: whatever the scope does to the platform and however it
    is left, the context stack is afterwards what it was before. *)
Lemma scoped_override_neutral {A : Type} (context_handle : handle_t)
    (scope : M W A) :
  context_neutral scope ->
  context_neutral (scoped_override_t context_handle scope).
Proof.
  intros Hscope st. unfold scoped_override_t.
  cbn [scoped_override_t_ctor snd].
  specialize (Hscope (mk_thread_state (native st) (calls st)
                        (context_handle :: context_stack st))).
  destruct (scope _) as [r st2]. cbn [snd] in *.
  unfold scoped_override_t_dtor. cbn [snd context_stack].
  now rewrite Hscope.
Qed.

Lemma synchronize_neutral (event : Event.event_t) :
  context_neutral (Event.synchronize event).
Proof.
  unfold Event.synchronize. apply scoped_override_neutral.
  apply bind_neutral; [apply native_call_neutral|].
  intros status. apply throw_if_error_neutral.
Qed.

Lemma get_attribute_neutral (this : Kernel.kernel_t) (attribute : Z) :
  context_neutral (Kernel.get_attribute this attribute).
Proof.
  unfold Kernel.get_attribute, Kernel.get_attribute_in_current_context.
  apply scoped_override_neutral.
  apply bind_neutral; [apply native_call_out_neutral|].
  intros [result value].
  apply bind_neutral; [apply throw_if_error_neutral|].
  intros _. apply ret_neutral.
Qed.

Lemma set_cache_preference_neutral (this : Kernel.kernel_t) (preference : Z) :
  context_neutral (Kernel.set_cache_preference this preference).
Proof.
  unfold Kernel.set_cache_preference.
  apply bind_neutral; [|intros _; apply ret_neutral].
  apply scoped_override_neutral.
  apply bind_neutral; [apply native_call_neutral|].
  intros status. apply throw_if_error_neutral.
Qed.

Lemma set_shared_memory_bank_size_neutral (this : Kernel.kernel_t)
    (config : Z) :
  context_neutral (Kernel.set_shared_memory_bank_size this config).
Proof.
  unfold Kernel.set_shared_memory_bank_size.
  apply bind_neutral; [|intros _; apply ret_neutral].
  apply scoped_override_neutral.
  apply bind_neutral; [apply native_call_neutral|].
  intros status. apply throw_if_error_neutral.
Qed.

Lemma event_create_neutral (device_id : device_id_t)
    (context_handle : handle_t) (b t i : bool) :
  context_neutral (Event.create device_id context_handle b t i).
Proof.
  unfold Event.create, Event.create_in_current_context.
  apply scoped_override_neutral.
  apply bind_neutral; [apply native_call_out_neutral|].
  intros [status h].
  apply bind_neutral; [apply throw_if_error_neutral|].
  intros _. apply ret_neutral.
Qed.

(** What [synchronize] returns. *)
Lemma synchronize_outcome (event : Event.event_t) (st : thread_state W) :
  fst (Event.synchronize event st) =
  let status := fst (cuEventSynchronize (Event.handle event) (native st)) in
  if status =? CUDA_SUCCESS then Returned tt
  else Thrown (cuda_runtime_error status
                 ("Failed synchronizing " +++ Event.identify event)).
Proof.
  unfold Event.synchronize. run.
  destruct (cuEventSynchronize _ _) as [status w]. cbn.
  now destruct (status =? CUDA_SUCCESS).
Qed.

(** What [get_attribute] returns. *)
Lemma get_attribute_outcome (this : Kernel.kernel_t) (attribute : Z)
    (st : thread_state W) :
  fst (Kernel.get_attribute this attribute st) =
  let answer := fst (cuFuncGetAttribute attribute (Kernel.handle this)
                       (native st)) in
  if fst answer =? CUDA_SUCCESS then Returned (snd answer)
  else Thrown (cuda_runtime_error (fst answer)
                 ("Failed obtaining attribute "
                  +++ Kernel.attribute_name attribute)).
Proof.
  unfold Kernel.get_attribute, Kernel.get_attribute_in_current_context. run.
  destruct (cuFuncGetAttribute _ _ _) as [[status value] w]. cbn.
  now destruct (status =? CUDA_SUCCESS).
Qed.

End ContextDiscipline.

(** C4.  The operations of the three files that run inside a scoped
    context override ([synchronize] on an event, [kernel_t::get_attribute],
    [set_cache_preference], [set_shared_memory_bank_size], the event
    factory) leave the thread's context stack, hence its current context,
    as it was before the call, on the normal and on the exceptional exit;
    inside the scope the target context is current; and nested overrides
    restore in LIFO order: after an inner override is left (here by an
    exception, caught by the client) the outer override's context is
    current again, and after the outer one the original context. *)
Theorem scoped_override_restores_the_current_context
    {W : Type} {P : Platform W} :
  (forall (event : Event.event_t) (st : thread_state W),
      context_stack (snd (Event.synchronize event st)) = context_stack st /\
      current_context (snd (Event.synchronize event st)) = current_context st) /\
  (forall (k : Kernel.kernel_t) (attribute : Z) (st : thread_state W),
      context_stack (snd (Kernel.get_attribute k attribute st))
        = context_stack st /\
      current_context (snd (Kernel.get_attribute k attribute st))
        = current_context st) /\
  (forall (k : Kernel.kernel_t) (z : Z) (st : thread_state W),
      current_context (snd (Kernel.set_cache_preference k z st))
        = current_context st /\
      current_context (snd (Kernel.set_shared_memory_bank_size k z st))
        = current_context st) /\
  (forall (d : device_id_t) (c : handle_t) (b t i : bool) (st : thread_state W),
      current_context (snd (Event.create d c b t i st)) = current_context st) /\
  (forall (event : Event.event_t) (st : thread_state W),
      fst (cuEventSynchronize (Event.handle event) (native st)) <> CUDA_SUCCESS ->
      (exists e, fst (Event.synchronize event st) = Thrown e) /\
      current_context (snd (Event.synchronize event st)) = current_context st) /\
  (forall (k : Kernel.kernel_t) (attribute : Z) (st : thread_state W),
      fst (fst (cuFuncGetAttribute attribute (Kernel.handle k) (native st)))
        <> CUDA_SUCCESS ->
      (exists e, fst (Kernel.get_attribute k attribute st) = Thrown e) /\
      current_context (snd (Kernel.get_attribute k attribute st))
        = current_context st) /\
  (forall (c : handle_t) (st : thread_state W),
      fst (scoped_override_t c observe_current_context st)
        = Returned (Some c)) /\
  (forall (c1 c2 : handle_t) (st : thread_state W),
      fst (scoped_override_t c1
             (scoped_override_t c2 observe_current_context) st)
        = Returned (Some c2)) /\
  (forall (c1 c2 : handle_t) (e : exception) (st : thread_state W),
      let nested :=
        scoped_override_t c1
          (try_discard (scoped_override_t c2 (throw (A := unit) e)) ;;
           observe_current_context) in
      fst (nested st) = Returned (Some c1) /\
      context_stack (snd (nested st)) = context_stack st) /\
  (forall (c1 : handle_t) (event : Event.event_t) (st : thread_state W),
      let nested :=
        scoped_override_t c1
          (try_discard (Event.synchronize event) ;; observe_current_context) in
      fst (nested st) = Returned (Some c1) /\
      context_stack (snd (nested st)) = context_stack st).
Proof.
  repeat match goal with |- _ /\ _ => split end.
  - intros event st. unfold current_context.
    now rewrite synchronize_neutral.
  - intros k attribute st. unfold current_context.
    now rewrite get_attribute_neutral.
  - intros k z st. unfold current_context.
    now rewrite set_cache_preference_neutral,
      set_shared_memory_bank_size_neutral.
  - intros d c b t i st. unfold current_context.
    now rewrite event_create_neutral.
  - intros event st Hfail. split.
    + rewrite synchronize_outcome. cbn zeta.
      destruct (Z.eqb_spec
                  (fst (cuEventSynchronize (Event.handle event) (native st)))
                  CUDA_SUCCESS); [contradiction | eauto].
    + unfold current_context. now rewrite synchronize_neutral.
  - intros k attribute st Hfail. split.
    + rewrite get_attribute_outcome. cbn zeta.
      destruct (Z.eqb_spec
                  (fst (fst (cuFuncGetAttribute attribute (Kernel.handle k)
                               (native st))))
                  CUDA_SUCCESS); [contradiction | eauto].
    + unfold current_context. now rewrite get_attribute_neutral.
  - intros c st. reflexivity.
  - intros c1 c2 st. reflexivity.
  - intros c1 c2 e st. cbn zeta. split; reflexivity.
  - intros c1 event st. cbn zeta.
    unfold scoped_override_t.
    cbn [scoped_override_t_ctor snd].
    unfold bind, try_discard, observe_current_context, current_context.
    cbn [fst snd scoped_override_t_dtor context_stack].
    rewrite synchronize_neutral. cbn [context_stack]. split; reflexivity.
Qed.

(** ** Querying an event *)

Lemma has_occurred_spec {W : Type} {P : Platform W} (e : Event.event_t)
    (st : thread_state W) :
  Event.has_occurred e st =
  let status := fst (cuEventQuery (Event.handle e) (native st)) in
  (if status =? CUDA_SUCCESS then Returned true
   else if status =? CUDA_ERROR_NOT_READY then Returned false
   else Thrown (cuda_runtime_error status
                  ("Could not determine whether "
                   +++ event_identify (Event.handle e)
                   +++ "has already occurred or not.")),
   mk_thread_state (snd (cuEventQuery (Event.handle e) (native st)))
     (calls st ++ [CuEventQuery (Event.handle e)]) (context_stack st)).
Proof.
  unfold Event.has_occurred, Event.handle. run.
  destruct (cuEventQuery _ _) as [status w]. cbn.
  destruct (status =? CUDA_SUCCESS); [reflexivity|].
  now destruct (status =? CUDA_ERROR_NOT_READY).
Qed.

Lemma create_in_current_context_spec {W : Type} {P : Platform W}
    (d : device_id_t) (c : handle_t) (b t i : bool) (st : thread_state W) :
  Event.create_in_current_context d c b t i st =
  let answer := cuEventCreate (Event.make_flags b t i) (native st) in
  (if fst (fst answer) =? CUDA_SUCCESS
   then Returned (Event.mk_event_t d c (snd (fst answer)) true)
   else Thrown (cuda_runtime_error (fst (fst answer))
                  "failed creating a CUDA event associated with the current device"),
   mk_thread_state (snd answer)
     (calls st ++ [CuEventCreate (Event.make_flags b t i)])
     (context_stack st)).
Proof.
  unfold Event.create_in_current_context. run.
  destruct (cuEventCreate _ _) as [[status h] w]. cbn.
  now destruct (status =? CUDA_SUCCESS).
Qed.

Lemma event_create_spec {W : Type} {P : Platform W}
    (d : device_id_t) (c : handle_t) (b t i : bool) (st : thread_state W) :
  Event.create d c b t i st =
  let answer := cuEventCreate (Event.make_flags b t i) (native st) in
  (if fst (fst answer) =? CUDA_SUCCESS
   then Returned (Event.mk_event_t d c (snd (fst answer)) true)
   else Thrown (cuda_runtime_error (fst (fst answer))
                  "failed creating a CUDA event associated with the current device"),
   mk_thread_state (snd answer)
     (calls st ++ [CuEventCreate (Event.make_flags b t i)])
     (context_stack st)).
Proof.
  unfold Event.create, scoped_override_t.
  rewrite create_in_current_context_spec. reflexivity.
Qed.

(** The reference platform meets the two contracts on events. *)
Lemma sim_unrecorded_event_reads_as_occurred :
  unrecorded_event_reads_as_occurred (W := Sim.world).
Proof.
  intros flags w. cbn. unfold Sim.sim_cuEventCreate.
  destruct (Sim.down w) eqn:Hdown; cbn; [discriminate|].
  intros _. unfold Sim.sim_cuEventQuery. cbn. now rewrite Z.eqb_refl.
Qed.

Lemma sim_event_query_is_read_only :
  event_query_is_read_only (W := Sim.world).
Proof.
  intros event w. cbn. unfold Sim.sim_cuEventQuery.
  destruct (Sim.down w); [reflexivity|].
  now destruct (Sim.lookup event (Sim.events w)) as [[|]|].
Qed.

(** C5.  [has_occurred] (and its alias [query]) returns [true] when the
    native query reports success, [false] when it reports "not ready", and
    throws a [cuda::runtime_error] carrying the native status for any
    other status.  It issues the native query and nothing else, so that,
    the native query being a read, the platform's state (the event's state
    in it) is what it was; the proxy is passed as const.  On a platform
    where unrecorded events read as occurred, an event that has just been
    created by the factory is owning and reads as occurred. *)
Theorem has_occurred_reads_the_query_status
    {W : Type} {P : Platform W} :
  unrecorded_event_reads_as_occurred ->
  event_query_is_read_only ->
  (forall (e : Event.event_t) (st : thread_state W),
      let status := fst (cuEventQuery (Event.handle e) (native st)) in
      fst (Event.has_occurred e st) =
        (if status =? CUDA_SUCCESS then Returned true
         else if status =? CUDA_ERROR_NOT_READY then Returned false
         else Thrown (cuda_runtime_error status
                        ("Could not determine whether "
                         +++ event_identify (Event.handle e)
                         +++ "has already occurred or not."))) /\
      Event.query e st = Event.has_occurred e st /\
      calls (snd (Event.has_occurred e st))
        = calls st ++ [CuEventQuery (Event.handle e)] /\
      native (snd (Event.has_occurred e st)) = native st /\
      context_stack (snd (Event.has_occurred e st)) = context_stack st) /\
  (forall (d : device_id_t) (c : handle_t) (b t i : bool)
          (st st' : thread_state W) (e : Event.event_t),
      (Event.create_in_current_context d c b t i st = (Returned e, st') \/
       Event.create d c b t i st = (Returned e, st')) ->
      Event.is_owning e = true /\
      fst (Event.has_occurred e st') = Returned true).
Proof.
  intros Hfresh Hread. split.
  - intros e st. unfold Event.query. rewrite has_occurred_spec. cbn zeta.
    cbn [fst snd native calls context_stack].
    rewrite Hread. repeat split.
  - intros d c b t i st st' e Hcreated.
    assert (Hshape :
      (if fst (fst (cuEventCreate (Event.make_flags b t i) (native st)))
          =? CUDA_SUCCESS
       then Returned
              (Event.mk_event_t d c
                 (snd (fst (cuEventCreate (Event.make_flags b t i) (native st))))
                 true)
       else Thrown
              (cuda_runtime_error
                 (fst (fst (cuEventCreate (Event.make_flags b t i) (native st))))
                 "failed creating a CUDA event associated with the current device"))
      = Returned e /\
      native st' = snd (cuEventCreate (Event.make_flags b t i) (native st))).
    { destruct Hcreated as [H|H].
      - rewrite create_in_current_context_spec in H. cbn zeta in H.
        inversion H; subst. split; reflexivity.
      - rewrite event_create_spec in H. cbn zeta in H.
        inversion H; subst. split; reflexivity. }
    destruct Hshape as [Houtcome Hnative].
    destruct (Z.eqb_spec
                (fst (fst (cuEventCreate (Event.make_flags b t i) (native st))))
                CUDA_SUCCESS) as [Hok|Hko]; [|discriminate Houtcome].
    inversion Houtcome; subst e. split; [reflexivity|].
    rewrite has_occurred_spec. cbn [fst Event.handle Event.handle_].
    rewrite Hnative, (Hfresh _ _ Hok). reflexivity.
Qed.

(** On the reference platform: an event is created and queried at once
    (occurred), then recorded and queried again (pending). *)
Lemma has_occurred_reads_the_query_status_witness :
  unrecorded_event_reads_as_occurred (W := Sim.world) /\
  event_query_is_read_only (W := Sim.world) /\
  let created := Event.create 0 256 false true false (Sim.thread Sim.initial) in
  let e := Event.mk_event_t 0 256 4096 true in
  fst created = Returned e /\
  fst (Event.has_occurred e (snd created)) = Returned true /\
  fst ((Event.record e ;; Event.has_occurred e)%cpp (snd created))
    = Returned false.
Proof.
  split; [exact sim_unrecorded_event_reads_as_occurred|].
  split; [exact sim_event_query_is_read_only|].
  destruct (has_occurred_reads_the_query_status
              sim_unrecorded_event_reads_as_occurred
              sim_event_query_is_read_only) as [Hquery Hcreated].
  cbn zeta. split; [reflexivity|]. split.
  - exact (proj2 (Hcreated 0 256 false true false
                    (Sim.thread Sim.initial)
                    (snd (Event.create 0 256 false true false
                            (Sim.thread Sim.initial)))
                    (Event.mk_event_t 0 256 4096 true)
                    (or_intror eq_refl))).
  - reflexivity.
Defined.

(** ** Compiled artifacts *)

Lemma dynarray_of_size_length (size : size_t) :
  List.length (dynarray_of_size size) = N.to_nat size.
Proof. unfold dynarray_of_size. apply repeat_length. Qed.

(** The buffer keeps its size whatever the platform writes. *)
Lemma written_into_length (buffer : dynarray) (data : list byte) :
  List.length (written_into buffer data) = List.length buffer.
Proof.
  unfold written_into. rewrite length_app, length_firstn, length_skipn. lia.
Qed.

(** When the platform hands over as many bytes as it announced, the buffer
    holds exactly these bytes. *)
Lemma written_into_all (buffer : dynarray) (data : list byte) :
  List.length data = List.length buffer -> written_into buffer data = data.
Proof.
  intros Hlen. unfold written_into.
  rewrite <- Hlen, firstn_all, Hlen, skipn_all. apply app_nil_r.
Qed.

Section Artifacts.
Context {W : Type} {P : Platform W}.
Variable this : Program.program_t.
Variable st : thread_state W.

Let h := Program.handle this.

(** [ptx]: complete description. *)
Lemma ptx_spec :
  fst (Program.ptx this st) =
  let query := fst (nvrtcGetPTXSize h (native st)) in
  let fetch := fst (nvrtcGetPTX h (snd (nvrtcGetPTXSize h (native st)))) in
  if fst query =? NVRTC_SUCCESS then
    if fst fetch =? NVRTC_SUCCESS
    then Returned (written_into (dynarray_of_size (snd query)) (snd fetch))
    else Thrown (rtc_runtime_error (fst fetch)
                   ("Failed obtaining NVRTC program output PTX for "
                    +++ Program.identify this))
  else Thrown (rtc_runtime_error (fst query)
                 ("Failed obtaining NVRTC program output PTX size for "
                  +++ Program.identify this)).
Proof.
  subst h. unfold Program.ptx, Program.handle. run.
  destruct (nvrtcGetPTXSize _ _) as [[s size] w1]. cbn.
  destruct (s =? NVRTC_SUCCESS); [|reflexivity]. cbn.
  destruct (nvrtcGetPTX _ _) as [[s2 data] w2]. cbn.
  now destruct (s2 =? NVRTC_SUCCESS).
Qed.

(** [cubin]: complete description. *)
Lemma cubin_spec :
  fst (Program.cubin this st) =
  let query := fst (nvrtcGetCUBINSize h (native st)) in
  let fetch := fst (nvrtcGetCUBIN h (snd (nvrtcGetCUBINSize h (native st)))) in
  if fst query =? NVRTC_SUCCESS then
    if (snd query =? 0)%N
    then Thrown (std_invalid_argument
                   ("CUBIN requested for a CUDA program compiled for a virtual architecture: "
                    +++ Program.identify this))
    else if fst fetch =? NVRTC_SUCCESS
    then Returned (written_into (dynarray_of_size (snd query)) (snd fetch))
    else Thrown (rtc_runtime_error (fst fetch)
                   ("Failed obtaining NVRTC program output CUBIN for"
                    +++ Program.identify this))
  else Thrown (rtc_runtime_error (fst query)
                 "Failed obtaining NVRTC program output CUBIN size").
Proof.
  subst h. unfold Program.cubin, Program.handle. run.
  destruct (nvrtcGetCUBINSize _ _) as [[s size] w1]. cbn.
  destruct (s =? NVRTC_SUCCESS); [|reflexivity]. cbn.
  destruct (size =? 0)%N; [reflexivity|].
  destruct (nvrtcGetCUBIN _ _) as [[s2 data] w2]. cbn.
  now destruct (s2 =? NVRTC_SUCCESS).
Qed.

(** [nvvm]: complete description. *)
Lemma nvvm_spec :
  fst (Program.nvvm this st) =
  let query := fst (nvrtcGetNVVMSize h (native st)) in
  let fetch := fst (nvrtcGetNVVM h (snd (nvrtcGetNVVMSize h (native st)))) in
  if fst query =? NVRTC_SUCCESS then
    if fst fetch =? NVRTC_SUCCESS
    then Returned (written_into (dynarray_of_size (snd query)) (snd fetch))
    else Thrown (rtc_runtime_error (fst fetch)
                   "Failed obtaining NVRTC program output NVVM")
  else Thrown (rtc_runtime_error (fst query)
                 "Failed obtaining NVRTC program output NVVM size").
Proof.
  subst h. unfold Program.nvvm, Program.handle. run.
  destruct (nvrtcGetNVVMSize _ _) as [[s size] w1]. cbn.
  destruct (s =? NVRTC_SUCCESS); [|reflexivity]. cbn.
  destruct (nvrtcGetNVVM _ _) as [[s2 data] w2]. cbn.
  now destruct (s2 =? NVRTC_SUCCESS).
Qed.

End Artifacts.

(** C6.  Each artifact accessor ([ptx], [cubin], [nvvm]) throws, with the
    status of the size query, whenever the platform rejects that query --
    which is what the platform does for a program that was never compiled
    (see [accessors_before_and_after_compilation] for a run).  [cubin]
    throws the empty-artifact error ([std::invalid_argument]) exactly when
    the size query succeeds and reports size 0.  When the size query
    succeeds (with a size other than 0, for [cubin]) and the fetch
    succeeds, the accessor returns, and what it returns is a buffer of
    its own with exactly the reported number of bytes: the bytes the
    platform wrote into it, and nothing but the platform's data when the
    platform hands over as many bytes as it reported. *)
Theorem artifact_accessors_fail_or_return_a_copy
    {W : Type} {P : Platform W} (this : Program.program_t)
    (st : thread_state W) :
  let h := Program.handle this in
  let ptx_query := fst (nvrtcGetPTXSize h (native st)) in
  let ptx_data :=
    snd (fst (nvrtcGetPTX h (snd (nvrtcGetPTXSize h (native st))))) in
  let cubin_query := fst (nvrtcGetCUBINSize h (native st)) in
  let cubin_data :=
    snd (fst (nvrtcGetCUBIN h (snd (nvrtcGetCUBINSize h (native st))))) in
  let nvvm_query := fst (nvrtcGetNVVMSize h (native st)) in
  let nvvm_data :=
    snd (fst (nvrtcGetNVVM h (snd (nvrtcGetNVVMSize h (native st))))) in
  (fst ptx_query <> NVRTC_SUCCESS ->
   exists what,
     fst (Program.ptx this st) = Thrown (rtc_runtime_error (fst ptx_query) what)) /\
  (fst cubin_query <> NVRTC_SUCCESS ->
   exists what,
     fst (Program.cubin this st)
       = Thrown (rtc_runtime_error (fst cubin_query) what)) /\
  (fst nvvm_query <> NVRTC_SUCCESS ->
   exists what,
     fst (Program.nvvm this st)
       = Thrown (rtc_runtime_error (fst nvvm_query) what)) /\
  ((exists what,
       fst (Program.cubin this st) = Thrown (std_invalid_argument what)) <->
   fst cubin_query = NVRTC_SUCCESS /\ snd cubin_query = 0%N) /\
  (forall r : dynarray,
      fst (Program.cubin this st) = Returned r ->
      snd cubin_query <> 0%N /\
      List.length r = N.to_nat (snd cubin_query) /\
      r = written_into (dynarray_of_size (snd cubin_query)) cubin_data /\
      (List.length cubin_data = N.to_nat (snd cubin_query) -> r = cubin_data)) /\
  (forall r : dynarray,
      fst (Program.ptx this st) = Returned r ->
      List.length r = N.to_nat (snd ptx_query) /\
      r = written_into (dynarray_of_size (snd ptx_query)) ptx_data /\
      (List.length ptx_data = N.to_nat (snd ptx_query) -> r = ptx_data)) /\
  (forall r : dynarray,
      fst (Program.nvvm this st) = Returned r ->
      List.length r = N.to_nat (snd nvvm_query) /\
      r = written_into (dynarray_of_size (snd nvvm_query)) nvvm_data /\
      (List.length nvvm_data = N.to_nat (snd nvvm_query) -> r = nvvm_data)) /\
  (fst ptx_query = NVRTC_SUCCESS ->
   fst (fst (nvrtcGetPTX h (snd (nvrtcGetPTXSize h (native st)))))
     = NVRTC_SUCCESS ->
   fst (Program.ptx this st)
     = Returned (written_into (dynarray_of_size (snd ptx_query)) ptx_data)) /\
  (fst cubin_query = NVRTC_SUCCESS ->
   snd cubin_query <> 0%N ->
   fst (fst (nvrtcGetCUBIN h (snd (nvrtcGetCUBINSize h (native st)))))
     = NVRTC_SUCCESS ->
   fst (Program.cubin this st)
     = Returned (written_into (dynarray_of_size (snd cubin_query)) cubin_data)) /\
  (fst nvvm_query = NVRTC_SUCCESS ->
   fst (fst (nvrtcGetNVVM h (snd (nvrtcGetNVVMSize h (native st)))))
     = NVRTC_SUCCESS ->
   fst (Program.nvvm this st)
     = Returned (written_into (dynarray_of_size (snd nvvm_query)) nvvm_data)).
Proof.
  cbn zeta. rewrite ptx_spec, cubin_spec, nvvm_spec. cbn zeta.
  set (h := Program.handle this).
  destruct (Z.eqb_spec (fst (fst (nvrtcGetPTXSize h (native st)))) NVRTC_SUCCESS)
    as [Hp|Hp];
  destruct (Z.eqb_spec (fst (fst (nvrtcGetCUBINSize h (native st)))) NVRTC_SUCCESS)
    as [Hc|Hc];
  destruct (Z.eqb_spec (fst (fst (nvrtcGetNVVMSize h (native st)))) NVRTC_SUCCESS)
    as [Hn|Hn];
  destruct (N.eqb_spec (snd (fst (nvrtcGetCUBINSize h (native st)))) 0)
    as [Hz|Hz];
  destruct (Z.eqb_spec
              (fst (fst (nvrtcGetPTX h (snd (nvrtcGetPTXSize h (native st))))))
              NVRTC_SUCCESS);
  destruct (Z.eqb_spec
              (fst (fst (nvrtcGetCUBIN h (snd (nvrtcGetCUBINSize h (native st))))))
              NVRTC_SUCCESS);
  destruct (Z.eqb_spec
              (fst (fst (nvrtcGetNVVM h (snd (nvrtcGetNVVMSize h (native st))))))
              NVRTC_SUCCESS);
  repeat match goal with
    | |- _ /\ _ => split
    | |- _ <-> _ => split
    | |- _ -> _ => intro
    | H : exists _, _ |- _ => destruct H
    | H : _ /\ _ |- _ => destruct H
    | H : Returned _ = Returned _ |- _ => inversion H; clear H; subst
    | |- exists _, Thrown _ = Thrown _ => eexists; reflexivity
    | |- List.length (written_into _ _) = _ =>
        rewrite written_into_length; apply dynarray_of_size_length
    | |- written_into _ _ = _ =>
        first [reflexivity
              | apply written_into_all; rewrite dynarray_of_size_length;
                assumption]
    | _ => congruence
    end.
Qed.

(** On the reference platform: a program that was created and not
    compiled (every accessor is rejected), and the same program compiled
    for a real architecture (each accessor returns the bytes of its
    artifact; the binary has four bytes as reported). *)
Lemma artifact_accessors_fail_or_return_a_copy_witness :
  let p := Program.mk_program_t 4096 "prog" true in
  let created := snd (Program.create "prog" "void k(){}"
                        (Sim.thread Sim.initial)) in
  let real := snd (Program.compile p [Sim.real_architecture] created) in
  (exists what, fst (Program.ptx p created)
                = Thrown (rtc_runtime_error NVRTC_ERROR_INVALID_PROGRAM what)) /\
  (exists what, fst (Program.cubin p created)
                = Thrown (rtc_runtime_error NVRTC_ERROR_INVALID_PROGRAM what)) /\
  (exists what, fst (Program.nvvm p created)
                = Thrown (rtc_runtime_error NVRTC_ERROR_INVALID_PROGRAM what)) /\
  (forall r, fst (Program.cubin p real) = Returned r -> List.length r = 4%nat) /\
  fst (Program.cubin p real) = Returned [x7f; x45; x4c; x46] /\
  fst (Program.ptx p real)
    = Returned (list_byte_of_string "void k(){}" ++ [x00]) /\
  fst (Program.nvvm p real)
    = Returned (list_byte_of_string "void k(){}" ++ [x00]).
Proof.
  intros p created real.
  destruct (artifact_accessors_fail_or_return_a_copy p created)
    as (Hptx & Hcubin & Hnvvm & _).
  destruct (artifact_accessors_fail_or_return_a_copy p real)
    as (_ & _ & _ & _ & Hcopy & _ & _ & Hptx_returns & Hcubin_returns
        & Hnvvm_returns).
  assert (Hrejected : NVRTC_ERROR_INVALID_PROGRAM <> NVRTC_SUCCESS)
    by discriminate.
  assert (Hsize : 4%N <> 0%N) by discriminate.
  split; [exact (Hptx Hrejected)|].
  split; [exact (Hcubin Hrejected)|].
  split; [exact (Hnvvm Hrejected)|].
  split; [intros r Hr; exact (proj1 (proj2 (Hcopy r Hr)))|].
  split; [exact (Hcubin_returns eq_refl Hsize eq_refl)|].
  split; [exact (Hptx_returns eq_refl eq_refl)|].
  exact (Hnvvm_returns eq_refl eq_refl).
Defined.

(** A run on the reference platform: the three accessors before any
    compilation, after a compilation for a virtual architecture only, and
    after a compilation for a real architecture; and two consecutive
    fetches. *)
Example accessors_before_and_after_compilation :
  let p := Program.mk_program_t 4096 "prog" true in
  let created := Program.create "prog" "void k(){}" (Sim.thread Sim.initial) in
  let virtual_only := snd (Program.compile p [] (snd created)) in
  let real := snd (Program.compile p [Sim.real_architecture] (snd created)) in
  fst created = Returned p /\
  (exists what, fst (Program.ptx p (snd created))
                = Thrown (rtc_runtime_error NVRTC_ERROR_INVALID_PROGRAM what)) /\
  (exists what, fst (Program.cubin p (snd created))
                = Thrown (rtc_runtime_error NVRTC_ERROR_INVALID_PROGRAM what)) /\
  (exists what, fst (Program.nvvm p (snd created))
                = Thrown (rtc_runtime_error NVRTC_ERROR_INVALID_PROGRAM what)) /\
  fst (Program.ptx p virtual_only)
    = Returned (list_byte_of_string "void k(){}" ++ [x00]) /\
  (exists what, fst (Program.cubin p virtual_only)
                = Thrown (std_invalid_argument what)) /\
  fst (Program.cubin p real) = Returned [x7f; x45; x4c; x46] /\
  fst (Program.cubin p (snd (Program.cubin p real)))
    = fst (Program.cubin p real).
Proof.
  cbn zeta. repeat split; try (eexists; vm_compute; reflexivity);
    vm_compute; reflexivity.
Qed.

(** ** Probes *)

Section Probes.
Context {W : Type} {P : Platform W}.
Variable this : Program.program_t.
Variable st : thread_state W.

Let h := Program.handle this.

(** [has_ptx]: complete description. *)
Lemma has_ptx_spec :
  Program.has_ptx this st =
  let query := fst (nvrtcGetPTXSize h (native st)) in
  (if fst query =? NVRTC_ERROR_INVALID_PROGRAM then Returned false
   else if fst query =? NVRTC_SUCCESS then
     if (snd query =? 0)%N
     then Thrown (std_logic_error
                    ("PTX size reported as 0 by NVRTC for program: "
                     +++ Program.identify this))
     else Returned true
   else Thrown (rtc_runtime_error (fst query)
                  ("Failed determining whether the NVRTC program has a compiled PTX result: "
                   +++ Program.identify this)),
   mk_thread_state (snd (nvrtcGetPTXSize h (native st)))
     (calls st ++ [NvrtcGetPTXSize h]) (context_stack st)).
Proof.
  subst h. unfold Program.has_ptx, Program.handle. run.
  destruct (nvrtcGetPTXSize _ _) as [[s size] w1]. cbn.
  destruct (s =? NVRTC_ERROR_INVALID_PROGRAM); [reflexivity|].
  destruct (s =? NVRTC_SUCCESS); [|reflexivity]. cbn.
  now destruct (size =? 0)%N.
Qed.

(** [has_cubin]: complete description. *)
Lemma has_cubin_spec :
  Program.has_cubin this st =
  let query := fst (nvrtcGetCUBINSize h (native st)) in
  (if fst query =? NVRTC_ERROR_INVALID_PROGRAM then Returned false
   else if fst query =? NVRTC_SUCCESS then Returned (0 <? snd query)%N
   else Thrown (rtc_runtime_error (fst query)
                  ("Failed determining whether the NVRTC program has a compiled CUBIN result: "
                   +++ Program.identify this)),
   mk_thread_state (snd (nvrtcGetCUBINSize h (native st)))
     (calls st ++ [NvrtcGetCUBINSize h]) (context_stack st)).
Proof.
  subst h. unfold Program.has_cubin, Program.handle. run.
  destruct (nvrtcGetCUBINSize _ _) as [[s size] w1]. cbn.
  destruct (s =? NVRTC_ERROR_INVALID_PROGRAM); [reflexivity|].
  now destruct (s =? NVRTC_SUCCESS).
Qed.

(** [has_nvvm]: complete description. *)
Lemma has_nvvm_spec :
  Program.has_nvvm this st =
  let query := fst (nvrtcGetNVVMSize h (native st)) in
  (if fst query =? NVRTC_ERROR_INVALID_PROGRAM then Returned false
   else if fst query =? NVRTC_SUCCESS then
     if (snd query =? 0)%N
     then Thrown (std_logic_error
                    ("NVVM size reported as 0 by NVRTC for program: "
                     +++ Program.identify this))
     else Returned true
   else Thrown (rtc_runtime_error (fst query)
                  ("Failed determining whether the NVRTC program has a compiled NVVM result: "
                   +++ Program.identify this)),
   mk_thread_state (snd (nvrtcGetNVVMSize h (native st)))
     (calls st ++ [NvrtcGetNVVMSize h]) (context_stack st)).
Proof.
  subst h. unfold Program.has_nvvm, Program.handle. run.
  destruct (nvrtcGetNVVMSize _ _) as [[s size] w1]. cbn.
  destruct (s =? NVRTC_ERROR_INVALID_PROGRAM); [reflexivity|].
  destruct (s =? NVRTC_SUCCESS); [|reflexivity]. cbn.
  now destruct (size =? 0)%N.
Qed.

End Probes.

(** C7 as stated (for every artifact kind the probe returns [false],
    without throwing, when the size query indicates that there is no such
    artifact) does not hold of the assembly and of the intermediate
    representation: on a platform that reports their size as 0 for a
    compiled program, [has_ptx] and [has_nvvm] throw [std::logic_error],
    where [has_cubin], for a binary of size 0, returns [false]. *)
Lemma has_ptx_throws_on_a_reported_size_of_zero :
  let p := Program.mk_program_t 4096 "prog" true in
  let created :=
    snd (Program.create (P := binary_only_platform) "prog" "void k(){}"
           (Sim.thread Sim.initial)) in
  let compiled :=
    snd (Program.compile (P := binary_only_platform) p [] created) in
  fst (nvrtcGetPTXSize (Platform := binary_only_platform) 4096
         (native compiled)) = (NVRTC_SUCCESS, 0%N) /\
  fst (Program.has_ptx (P := binary_only_platform) p compiled)
    <> Returned false /\
  (exists what,
      fst (Program.has_ptx (P := binary_only_platform) p compiled)
        = Thrown (std_logic_error what)) /\
  (exists what,
      fst (Program.has_nvvm (P := binary_only_platform) p compiled)
        = Thrown (std_logic_error what)) /\
  fst (nvrtcGetCUBINSize (Platform := binary_only_platform) 4096
         (native compiled)) = (NVRTC_SUCCESS, 0%N) /\
  fst (Program.has_cubin (P := binary_only_platform) p compiled)
    = Returned false.
Proof.
  cbn zeta. split; [reflexivity|]. split.
  - intros H. vm_compute in H. discriminate H.
  - split; [eexists; vm_compute; reflexivity|].
    split; [eexists; vm_compute; reflexivity|].
    split; reflexivity.
Qed.

(** C7, amended.  For each artifact kind the probe issues one native
    call, the size query of that artifact -- no data is fetched --, and
    when that query answers [NVRTC_ERROR_INVALID_PROGRAM] the probe
    returns [false] instead of throwing.  When the query succeeds and
    reports a size of 0, [has_cubin] returns [false] (compilation for a
    virtual architecture), while [has_ptx] and [has_nvvm] throw
    [std::logic_error].  When the query reports a non-empty artifact the
    probe returns [true]. *)
Theorem artifact_probes_query_the_size_only
    {W : Type} {P : Platform W} (this : Program.program_t)
    (st : thread_state W) :
  let h := Program.handle this in
  let ptx_query := fst (nvrtcGetPTXSize h (native st)) in
  let cubin_query := fst (nvrtcGetCUBINSize h (native st)) in
  let nvvm_query := fst (nvrtcGetNVVMSize h (native st)) in
  (calls (snd (Program.has_ptx this st)) = calls st ++ [NvrtcGetPTXSize h] /\
   calls (snd (Program.has_cubin this st)) = calls st ++ [NvrtcGetCUBINSize h] /\
   calls (snd (Program.has_nvvm this st)) = calls st ++ [NvrtcGetNVVMSize h]) /\
  (existsb is_fetch [NvrtcGetPTXSize h; NvrtcGetCUBINSize h; NvrtcGetNVVMSize h]
   = false) /\
  (fst ptx_query = NVRTC_ERROR_INVALID_PROGRAM ->
   fst (Program.has_ptx this st) = Returned false) /\
  (fst cubin_query = NVRTC_ERROR_INVALID_PROGRAM ->
   fst (Program.has_cubin this st) = Returned false) /\
  (fst nvvm_query = NVRTC_ERROR_INVALID_PROGRAM ->
   fst (Program.has_nvvm this st) = Returned false) /\
  (fst cubin_query = NVRTC_SUCCESS -> snd cubin_query = 0%N ->
   fst (Program.has_cubin this st) = Returned false) /\
  (fst ptx_query = NVRTC_SUCCESS -> snd ptx_query <> 0%N ->
   fst (Program.has_ptx this st) = Returned true) /\
  (fst cubin_query = NVRTC_SUCCESS -> snd cubin_query <> 0%N ->
   fst (Program.has_cubin this st) = Returned true) /\
  (fst nvvm_query = NVRTC_SUCCESS -> snd nvvm_query <> 0%N ->
   fst (Program.has_nvvm this st) = Returned true) /\
  (fst ptx_query = NVRTC_SUCCESS -> snd ptx_query = 0%N ->
   fst (Program.has_ptx this st)
     = Thrown (std_logic_error
                 ("PTX size reported as 0 by NVRTC for program: "
                  +++ Program.identify this))) /\
  (fst nvvm_query = NVRTC_SUCCESS -> snd nvvm_query = 0%N ->
   fst (Program.has_nvvm this st)
     = Thrown (std_logic_error
                 ("NVVM size reported as 0 by NVRTC for program: "
                  +++ Program.identify this))).
Proof.
  cbn zeta. rewrite has_ptx_spec, has_cubin_spec, has_nvvm_spec. cbn zeta.
  cbn [fst snd calls].
  split; [repeat split|]. split; [reflexivity|].
  repeat match goal with |- _ /\ _ => split end.
  - intros ->. reflexivity.
  - intros ->. reflexivity.
  - intros ->. reflexivity.
  - intros -> ->. reflexivity.
  - intros -> Hsize. cbn.
    now destruct (N.eqb_spec
                    (snd (fst (nvrtcGetPTXSize (Program.handle this)
                                 (native st)))) 0).
  - intros -> Hsize. cbn. f_equal. apply N.ltb_lt. lia.
  - intros -> Hsize. cbn.
    now destruct (N.eqb_spec
                    (snd (fst (nvrtcGetNVVMSize (Program.handle this)
                                 (native st)))) 0).
  - intros -> ->. reflexivity.
  - intros -> ->. reflexivity.
Qed.

(** On the reference platform: the probes of a program that was created
    and not compiled. *)
Lemma artifact_probes_query_the_size_only_witness :
  let p := Program.mk_program_t 4096 "prog" true in
  let created := snd (Program.create "prog" "void k(){}"
                        (Sim.thread Sim.initial)) in
  fst (Program.has_ptx p created) = Returned false /\
  fst (Program.has_cubin p created) = Returned false /\
  fst (Program.has_nvvm p created) = Returned false /\
  calls (snd (Program.has_ptx p created))
    = calls created ++ [NvrtcGetPTXSize 4096].
Proof.
  intros p created.
  destruct (artifact_probes_query_the_size_only p created)
    as ((Hcalls & _) & _ & Hptx & Hcubin & Hnvvm & _).
  split; [exact (Hptx eq_refl)|].
  split; [exact (Hcubin eq_refl)|].
  split; [exact (Hnvvm eq_refl)|].
  exact Hcalls.
Defined.

(** A run on the reference platform: the probes before and after a
    compilation for a virtual architecture only. *)
Example probes_before_and_after_compilation :
  let p := Program.mk_program_t 4096 "prog" true in
  let created := snd (Program.create "prog" "void k(){}"
                        (Sim.thread Sim.initial)) in
  let compiled := snd (Program.compile p [] created) in
  fst (Program.has_ptx p created) = Returned false /\
  fst (Program.has_cubin p created) = Returned false /\
  fst (Program.has_nvvm p created) = Returned false /\
  fst (Program.has_ptx p compiled) = Returned true /\
  fst (Program.has_cubin p compiled) = Returned false /\
  fst (Program.has_nvvm p compiled) = Returned true.
Proof. cbn zeta. repeat split; vm_compute; reflexivity. Qed.

(** ** Mutators of the resource *)

(** The member functions that change the native resource and are declared
    without [const] still leave every field of the proxy as it was. *)
Lemma non_const_mutators_leave_the_proxy_unchanged
    {W : Type} {P : Platform W} :
  (forall (this this' : Program.program_t) (name : string)
          (st st' : thread_state W),
      Program.register_name_for_lookup this name st = (Returned this', st') ->
      this' = this) /\
  (forall (this this' : Kernel.kernel_t) (z : Z) (st st' : thread_state W),
      Kernel.set_cache_preference this z st = (Returned this', st') ->
      this' = this) /\
  (forall (this this' : Kernel.kernel_t) (z : Z) (st st' : thread_state W),
      Kernel.set_shared_memory_bank_size this z st = (Returned this', st') ->
      this' = this).
Proof.
  repeat split.
  - intros this this' name st st'. unfold Program.register_name_for_lookup.
    run. destruct (nvrtcAddNameExpression _ _ _) as [s w]. cbn.
    destruct (s =? NVRTC_SUCCESS); cbn; congruence.
  - intros this this' z st st'. unfold Kernel.set_cache_preference.
    run. destruct (cuFuncSetCacheConfig _ _ _) as [s w]. cbn.
    destruct (s =? CUDA_SUCCESS); cbn; congruence.
  - intros this this' z st st'. unfold Kernel.set_shared_memory_bank_size.
    run. destruct (cuFuncSetSharedMemConfig _ _ _) as [s w]. cbn.
    destruct (s =? CUDA_SUCCESS); cbn; congruence.
Qed.

(** C8 (the code departs from it).  The claim: every operation that changes
    the native resource and not the proxy is const-qualified and leaves the
    proxy's fields unchanged.  The fields are unchanged
    ([non_const_mutators_leave_the_proxy_unchanged]; the const members
    cannot change them), but three of the operations are declared without
    [const]: [program_t::register_name_for_lookup],
    [kernel_t::set_cache_preference] and
    [kernel_t::set_shared_memory_bank_size], next to siblings
    ([program_t::compile], [kernel_t::set_attribute],
    [kernel_t::set_maximum_dynamic_shared_memory_per_block], the event
    mutators) that are. *)
Theorem three_resource_mutators_are_not_const_qualified :
  const_qualified program_t_register_name_for_lookup = false /\
  const_qualified kernel_t_set_cache_preference = false /\
  const_qualified kernel_t_set_shared_memory_bank_size = false /\
  const_qualified program_t_compile = true /\
  const_qualified kernel_t_set_attribute = true /\
  const_qualified kernel_t_set_maximum_dynamic_shared_memory_per_block = true /\
  const_qualified event_t_record = true /\
  const_qualified event_t_synchronize = true.
Proof. repeat split. Qed.

(** ** Program factories *)

Lemma program_t_ctor_spec {W : Type} {P : Platform W}
    (program_name cuda_source : string) (num_headers : Z)
    (header_names header_sources : list string) (st : thread_state W) :
  Program.program_t_ctor program_name cuda_source num_headers header_names
    header_sources st =
  let answer := nvrtcCreateProgram cuda_source program_name num_headers
                  header_sources header_names (native st) in
  (if fst (fst answer) =? NVRTC_SUCCESS
   then Returned (Program.mk_program_t (snd (fst answer)) program_name true)
   else Thrown (rtc_runtime_error (fst (fst answer))
                  ("Failed creating an NVRTC program (named "
                   +++ program_name +++ ")")),
   mk_thread_state (snd answer)
     (calls st ++ [NvrtcCreateProgram cuda_source program_name num_headers
                     header_sources header_names])
     (context_stack st)).
Proof.
  unfold Program.program_t_ctor. run.
  destruct (nvrtcCreateProgram _ _ _ _ _ _) as [[s h] w]. cbn.
  now destruct (s =? NVRTC_SUCCESS).
Qed.

(** The factory without headers and the factory taking spans give the
    program its name and hand the source text to the compiler as source;
    the proxy they return is owning. *)
Lemma span_factories_name_the_program {W : Type} {P : Platform W}
    (program_name cuda_source : string) (header_names header_sources : list string)
    (st : thread_state W) :
  (forall p, fst (Program.create program_name cuda_source st) = Returned p ->
             Program.name p = program_name /\ Program.owning_ p = true) /\
  calls (snd (Program.create program_name cuda_source st))
    = calls st ++ [NvrtcCreateProgram cuda_source program_name 0 [] []] /\
  (forall p,
      fst (Program.create_with_spans program_name cuda_source header_names
             header_sources st) = Returned p ->
      Program.name p = program_name /\ Program.owning_ p = true) /\
  calls (snd (Program.create_with_spans program_name cuda_source header_names
                header_sources st))
    = calls st ++ [NvrtcCreateProgram cuda_source program_name
                     (Z.of_nat (List.length header_names))
                     header_sources header_names].
Proof.
  unfold Program.create, Program.create_with_spans.
  rewrite !program_t_ctor_spec. cbn zeta. cbn [fst snd calls].
  repeat split;
    match goal with
    | H : (if ?c then _ else _) = Returned _ |- _ =>
        destruct c; inversion H; reflexivity
    end.
Qed.

(** The factory taking iterators, and [create_], pass their first two
    arguments to the constructor in the other order: the proxy is named
    after the source text, and the program name is compiled. *)
Lemma iterator_and_pair_factories_pass_the_source_as_name
    {W : Type} {P : Platform W}
    (program_name cuda_source : string) (names sources : list string)
    (headers : list (string * string)) (st : thread_state W) :
  (forall p,
      fst (Program.create_with_iterators program_name cuda_source names
             sources st) = Returned p ->
      Program.name p = cuda_source /\ Program.owning_ p = true) /\
  calls (snd (Program.create_with_iterators program_name cuda_source names
                sources st))
    = calls st ++ [NvrtcCreateProgram program_name cuda_source
                     (Z.of_nat (List.length names))
                     (firstn (List.length names) sources)
                     (firstn (List.length names) names)] /\
  (forall p,
      fst (Program.create_ program_name cuda_source headers st) = Returned p ->
      Program.name p = cuda_source /\ Program.owning_ p = true) /\
  calls (snd (Program.create_ program_name cuda_source headers st))
    = calls st ++ [NvrtcCreateProgram program_name cuda_source
                     (Z.of_nat (List.length headers))
                     (map snd headers) (map fst headers)].
Proof.
  unfold Program.create_with_iterators, Program.create_.
  rewrite !program_t_ctor_spec. cbn zeta. cbn [fst snd calls].
  repeat split;
    match goal with
    | H : (if ?c then _ else _) = Returned _ |- _ =>
        destruct c; inversion H; reflexivity
    end.
Qed.

(** C10 (the code departs from it).  The claim: every [program::create]
    returns an owning proxy whose [name()] is the [program_name] argument
    and compiles the [cuda_source] argument.  This holds of the factory
    without headers and of the one taking spans
    ([span_factories_name_the_program]).  The factory taking iterators
    interchanges the two: called with the name [my_program] and a source
    text, on the reference platform, it returns an owning proxy whose name
    is the source text, having asked the compiler for a program named
    after the source text whose source is [my_program]. *)
Theorem iterator_factory_interchanges_name_and_source :
  let created :=
    Program.create_with_iterators "my_program" "__global__ void k(){}"
      [] [] (Sim.thread Sim.initial) in
  fst created
    = Returned (Program.mk_program_t 4096 "__global__ void k(){}" true) /\
  (forall p, fst created = Returned p -> Program.name p <> "my_program") /\
  calls (snd created)
    = [NvrtcCreateProgram "my_program" "__global__ void k(){}" 0 [] []].
Proof.
  cbn zeta. split; [reflexivity|]. split; [|reflexivity].
  intros p Hp. vm_compute in Hp. inversion Hp; subst. cbn. discriminate.
Qed.

(** ** The occupancy calculator *)

Lemma to_int_small (z : Z) : 0 <= z < 2 ^ 31 -> to_int z = z.
Proof.
  intros Hz. unfold to_int. rewrite Z.mod_small; lia.
Qed.

Lemma to_unsigned_small (z : Z) : 0 <= z < 2 ^ 32 -> to_unsigned z = z.
Proof. intros Hz. unfold to_unsigned. apply Z.mod_small. exact Hz. Qed.

Lemma detail_min_grid_params_spec {W : Type} {P : Platform W}
    (f : handle_t) (device : device_id_t) (b2d : option (Z -> N)) (smem : N)
    (limit : Z) (disable : bool) (st : thread_state W) :
  10000 < CUDART_VERSION ->
  Kernel.detail_min_grid_params_for_max_occupancy f device b2d smem limit
    disable st =
  let flags := if disable then CU_OCCUPANCY_DISABLE_CACHING_OVERRIDE
               else CU_OCCUPANCY_DEFAULT in
  let answer := cuOccupancyMaxPotentialBlockSizeWithFlags f b2d smem
                  (to_int limit) flags (native st) in
  (if fst (fst answer) =? CUDA_SUCCESS
   then Returned (Kernel.mk_complete_dimensions_t
                    (to_unsigned (fst (snd (fst answer))))
                    (to_unsigned (snd (snd (fst answer)))))
   else Thrown (cuda_runtime_error (fst (fst answer))
                  ("Failed obtaining parameters for a minimum-size grid for "
                   +++ kernel_identify f device
                   +++ " with maximum occupancy given dynamic shared memory and block size data")),
   mk_thread_state (snd answer)
     (calls st ++ [CuOccupancyMaxPotentialBlockSizeWithFlags f b2d smem
                     (to_int limit) flags])
     (context_stack st)).
Proof.
  intros Hversion. unfold Kernel.detail_min_grid_params_for_max_occupancy.
  destruct (Z.leb_spec CUDART_VERSION 10000) as [Hold|_]; [lia|].
  run. destruct (cuOccupancyMaxPotentialBlockSizeWithFlags _ _ _ _ _ _)
    as [[s [g b]] w]. cbn.
  now destruct (s =? CUDA_SUCCESS).
Qed.

Lemma maximum_threads_per_block_outcome {W : Type} {P : Platform W}
    (this : Kernel.kernel_t) (st : thread_state W) :
  fst (Kernel.maximum_threads_per_block this st) =
  let answer := fst (cuFuncGetAttribute CU_FUNC_ATTRIBUTE_MAX_THREADS_PER_BLOCK
                       (Kernel.handle this) (native st)) in
  if fst answer =? CUDA_SUCCESS then Returned (to_unsigned (snd answer))
  else Thrown (cuda_runtime_error (fst answer)
                 ("Failed obtaining attribute "
                  +++ Kernel.attribute_name
                        CU_FUNC_ATTRIBUTE_MAX_THREADS_PER_BLOCK)).
Proof.
  unfold Kernel.maximum_threads_per_block, Kernel.get_attribute,
    Kernel.get_attribute_in_current_context. run.
  destruct (cuFuncGetAttribute _ _ _) as [[s v] w]. cbn.
  now destruct (s =? CUDA_SUCCESS).
Qed.

(** The reference platform meets the occupancy contract. *)
Lemma sim_occupancy_contract : occupancy_contract (W := Sim.world).
Proof.
  intros f b2d smem limit flags w. cbn.
  unfold Sim.sim_cuOccupancyMaxPotentialBlockSizeWithFlags,
    Sim.sim_cuFuncGetAttribute, Sim.max_threads.
  destruct (Sim.down w); cbn; [discriminate|].
  intros _. destruct (Z.eqb_spec limit 0) as [Hzero|Hnonzero].
  - repeat split; try lia.
  - destruct (Z.ltb_spec 0 limit); repeat split; try lia.
Qed.

(** C9.  On a platform whose occupancy heuristic honours its contract, with
    a CUDA runtime that has the heuristic, a call of
    [min_grid_params_for_max_occupancy] (either overload: with a fixed
    amount of shared memory or with a determiner) with block-size limit
    [L] on which the platform succeeds returns dimensions whose block size
    is at most [L] when [L > 0], and at most the kernel's
    [maximum_threads_per_block()] when [L = 0].  The first component of
    the result is the platform's minimum grid size and the second its
    block size, each under its own field.  The platform is asked once,
    with the caching-disable flag when [disable_caching_override] is
    [true] and the default flag when it is [false]. *)
Theorem occupancy_block_size_respects_the_limit
    {W : Type} {P : Platform W}
    (kernel : Kernel.kernel_t) (determiner : option (Z -> N)) (smem : N)
    (L : Z) (disable_caching_override : bool) (st : thread_state W) :
  let call :=
    match determiner with
    | None =>
        Kernel.min_grid_params_for_max_occupancy kernel smem L
          disable_caching_override
    | Some f =>
        Kernel.min_grid_params_for_max_occupancy_determiner kernel f L
          disable_caching_override
    end in
  let flags := if disable_caching_override
               then CU_OCCUPANCY_DISABLE_CACHING_OVERRIDE
               else CU_OCCUPANCY_DEFAULT in
  let fixed := match determiner with None => smem | Some _ => 0%N end in
  let answer :=
    cuOccupancyMaxPotentialBlockSizeWithFlags (Kernel.handle kernel)
      determiner fixed (to_int L) flags (native st) in
  occupancy_contract ->
  10000 < CUDART_VERSION ->
  0 <= L < 2 ^ 32 ->
  fst (fst answer) = CUDA_SUCCESS ->
  exists r : Kernel.complete_dimensions_t,
    fst (call st) = Returned r /\
    (0 < L -> Kernel.block r <= L) /\
    (L = 0 ->
     forall v, fst (Kernel.maximum_threads_per_block kernel st) = Returned v ->
               Kernel.block r <= v) /\
    Kernel.grid r = to_unsigned (fst (snd (fst answer))) /\
    Kernel.block r = snd (snd (fst answer)) /\
    calls (snd (call st))
      = calls st ++ [CuOccupancyMaxPotentialBlockSizeWithFlags
                       (Kernel.handle kernel) determiner fixed (to_int L)
                       flags] /\
    (flags = CU_OCCUPANCY_DISABLE_CACHING_OVERRIDE
     <-> disable_caching_override = true).
Proof.
  cbn zeta. intros Hcontract Hversion HL Hok.
  set (flags := if disable_caching_override
                then CU_OCCUPANCY_DISABLE_CACHING_OVERRIDE
                else CU_OCCUPANCY_DEFAULT) in *.
  set (fixed := match determiner with None => smem | Some _ => 0%N end) in *.
  assert (Hcall :
    match determiner with
    | None =>
        Kernel.min_grid_params_for_max_occupancy kernel smem L
          disable_caching_override
    | Some f =>
        Kernel.min_grid_params_for_max_occupancy_determiner kernel f L
          disable_caching_override
    end st
    = Kernel.detail_min_grid_params_for_max_occupancy (Kernel.handle kernel)
        (Kernel.device_id kernel) determiner fixed L
        disable_caching_override st).
  { subst fixed. destruct determiner; reflexivity. }
  rewrite Hcall, (detail_min_grid_params_spec _ _ _ _ _ _ _ Hversion).
  cbn zeta. fold flags. cbn [fst snd calls].
  rewrite Hok, Z.eqb_refl.
  specialize (Hcontract (Kernel.handle kernel) determiner fixed (to_int L)
                flags (native st)).
  cbn zeta in Hcontract. destruct (Hcontract Hok) as (Hrange & Hlimit & Hmax).
  eexists. split; [reflexivity|]. cbn [Kernel.block Kernel.grid].
  rewrite (to_unsigned_small (snd (snd (fst _)))) by lia.
  repeat match goal with |- _ /\ _ => split end.
  - intros Hpos. destruct (Z.lt_ge_cases L (2 ^ 31)) as [Hsmall|Hlarge].
    + pose proof (to_int_small L ltac:(lia)) as Hint.
      specialize (Hlimit ltac:(lia)). lia.
    + lia.
  - intros -> v Hv. rewrite maximum_threads_per_block_outcome in Hv.
    cbn zeta in Hv. change (to_int 0) with 0 in *.
    specialize (Hmax eq_refl). cbn zeta in Hmax.
    destruct (Z.eqb_spec
                (fst (fst (cuFuncGetAttribute
                             CU_FUNC_ATTRIBUTE_MAX_THREADS_PER_BLOCK
                             (Kernel.handle kernel) (native st))))
                CUDA_SUCCESS) as [Hattr|Hattr]; [|discriminate Hv].
    specialize (Hmax Hattr). inversion Hv; subst v.
    rewrite to_unsigned_small by lia. lia.
  - reflexivity.
  - reflexivity.
  - reflexivity.
  - subst flags. destruct disable_caching_override; split; intros H;
      try reflexivity; discriminate H.
Qed.

(** On the reference platform: a kernel, a limit of 256 threads, caching
    override disabled. *)
Lemma occupancy_block_size_respects_the_limit_witness :
  let kernel := Kernel.wrap 0 256 8192 in
  let st := Sim.thread Sim.initial in
  occupancy_contract (W := Sim.world) /\
  10000 < CUDART_VERSION /\
  0 <= 256 < 2 ^ 32 /\
  exists r : Kernel.complete_dimensions_t,
    fst (Kernel.min_grid_params_for_max_occupancy kernel 0%N 256 true st)
      = Returned r /\
    Kernel.block r <= 256.
Proof.
  cbn zeta.
  split; [exact sim_occupancy_contract|].
  split; [reflexivity|]. split; [lia|].
  assert (Hrange : 0 <= 256 < 2 ^ 32) by lia.
  destruct (occupancy_block_size_respects_the_limit
              (Kernel.wrap 0 256 8192) None 0%N 256 true
              (Sim.thread Sim.initial)
              sim_occupancy_contract eq_refl Hrange eq_refl)
    as (r & Hr & Hlimit & _).
  exists r. split; [exact Hr|]. apply Hlimit. reflexivity.
Defined.

(* ===================================================================== *)
(** * Further properties of the three files *)
(* ===================================================================== *)

(** ** Event flags *)

(** X1.  [event::detail_::make_flags] packs its three arguments into three
    separate bits of the flag word: bit 0 is [uses_blocking_sync], bit 1
    is the negation of [records_timing] (the native flag disables
    timing), bit 2 is [interprocess]; no other bit is set.  Hence the
    three arguments can be read back from the flags, and two calls give
    the same flags only for the same arguments. *)
Theorem make_flags_can_be_decoded :
  (forall b t i : bool,
      let flags := Event.make_flags b t i in
      Z.testbit flags 0 = b /\
      Z.testbit flags 1 = negb t /\
      Z.testbit flags 2 = i /\
      0 <= flags < 8 /\
      (Z.land flags CU_EVENT_DISABLE_TIMING = 0 <-> t = true)) /\
  (forall b t i b' t' i' : bool,
      Event.make_flags b t i = Event.make_flags b' t' i' ->
      b = b' /\ t = t' /\ i = i').
Proof.
  split.
  - intros [] [] []; cbn; repeat split; try lia; try discriminate.
  - intros [] [] [] [] [] []; cbn; intros H;
      first [discriminate H | repeat split].
Qed.

(** ** Ownership under moves and copies *)

(** X4.  A move construction conserves ownership, for an owning and for a
    non-owning source alike: the target owns exactly when the source did,
    the source does not own afterwards, so at most one of the two owns;
    both keep the handle and the other fields (a moved-from [program_t]
    keeps its name); and moving again from the moved-from object gives a
    non-owning proxy whose destruction does nothing. *)
Theorem move_conserves_ownership {W : Type} {P : Platform W} :
  (forall (p : Event.event_t) (st : thread_state W),
      let target := fst (Event.event_t_move p) in
      let source := snd (Event.event_t_move p) in
      Event.is_owning target = Event.is_owning p /\
      Event.is_owning source = false /\
      (Event.handle target, Event.device_id target,
       Event.context_handle target)
        = (Event.handle p, Event.device_id p, Event.context_handle p) /\
      (Event.handle source, Event.device_id source,
       Event.context_handle source)
        = (Event.handle p, Event.device_id p, Event.context_handle p) /\
      Event.is_owning (fst (Event.event_t_move source)) = false /\
      Event.event_t_dtor (fst (Event.event_t_move source)) st
        = (Returned tt, st) /\
      Event.event_t_dtor source st = (Returned tt, st)) /\
  (forall (p : Program.program_t) (st : thread_state W),
      let target := fst (Program.program_t_move p) in
      let source := snd (Program.program_t_move p) in
      target = p /\
      Program.owning_ source = false /\
      (Program.handle source, Program.name source)
        = (Program.handle p, Program.name p) /\
      Program.owning_ (fst (Program.program_t_move source)) = false /\
      Program.program_t_dtor (fst (Program.program_t_move source)) st
        = (Returned tt, st) /\
      Program.program_t_dtor source st = (Returned tt, st)).
Proof.
  split.
  - intros [d c h o] st. cbn. repeat split.
  - intros [h n o] st. cbn. repeat split.
Qed.


(** ** Who releases *)

Section Releases.
Context {W : Type} {P : Platform W}.

Lemma releases_nothing_ret {A : Type} (a : A) :
  releases_nothing (W := W) (ret a).
Proof. intros st h. split; reflexivity. Qed.

Lemma releases_nothing_throw {A : Type} (e : exception) :
  releases_nothing (W := W) (A := A) (throw e).
Proof. intros st h. split; reflexivity. Qed.

Lemma releases_nothing_bind {A B : Type} (m : M W A) (k : A -> M W B) :
  releases_nothing m -> (forall a, releases_nothing (k a)) ->
  releases_nothing (bind m k).
Proof.
  intros Hm Hk st h. unfold bind. specialize (Hm st h).
  destruct (m st) as [[a|e] st1]; cbn [snd] in *; [|exact Hm].
  destruct (Hk a st1 h) as [He Hp]. rewrite He, Hp. exact Hm.
Qed.

Lemma releases_nothing_native (c : native_call) (f : W -> status_t * W) :
  (forall h, is_event_release h c = false) ->
  (forall h, is_program_release h c = false) ->
  releases_nothing (native_call_ c f).
Proof.
  intros He Hp st h. unfold native_call_. destruct (f (native st)) as [s w].
  cbn [snd calls]. rewrite event_releases_app, program_releases_app.
  unfold event_releases at 2, program_releases at 2. cbn [filter].
  rewrite He, Hp. cbn. split; lia.
Qed.

Lemma releases_nothing_native_out {A : Type} (c : native_call)
    (f : W -> status_t * A * W) :
  (forall h, is_event_release h c = false) ->
  (forall h, is_program_release h c = false) ->
  releases_nothing (native_call_out c f).
Proof.
  intros He Hp st h. unfold native_call_out.
  destruct (f (native st)) as [[s o] w].
  cbn [snd calls]. rewrite event_releases_app, program_releases_app.
  unfold event_releases at 2, program_releases at 2. cbn [filter].
  rewrite He, Hp. cbn. split; lia.
Qed.

Lemma releases_nothing_throw_if_error (status : status_t) (message : string) :
  releases_nothing (W := W) (throw_if_error status message).
Proof.
  unfold throw_if_error. destruct (status =? CUDA_SUCCESS);
    [apply releases_nothing_ret | apply releases_nothing_throw].
Qed.

Lemma releases_nothing_rtc_throw_if_error (status : status_t)
    (message : string) :
  releases_nothing (W := W) (rtc_throw_if_error status message).
Proof.
  unfold rtc_throw_if_error. destruct (status =? NVRTC_SUCCESS);
    [apply releases_nothing_ret | apply releases_nothing_throw].
Qed.

Lemma releases_nothing_scoped_override {A : Type} (context_handle : handle_t)
    (scope : M W A) :
  releases_nothing scope ->
  releases_nothing (scoped_override_t context_handle scope).
Proof.
  intros Hscope st h. unfold scoped_override_t.
  cbn [scoped_override_t_ctor snd].
  specialize (Hscope (mk_thread_state (native st) (calls st)
                        (context_handle :: context_stack st)) h).
  destruct (scope _) as [r st2]. cbn [snd calls] in *.
  exact Hscope.
Qed.

End Releases.

(** Proves [releases_nothing] of a wrapper by following its structure. *)
Ltac quiet :=
  cbn zeta;
  repeat first
    [ apply releases_nothing_ret
    | apply releases_nothing_throw
    | apply releases_nothing_throw_if_error
    | apply releases_nothing_rtc_throw_if_error
    | apply releases_nothing_native; intros; reflexivity
    | apply releases_nothing_native_out; intros; reflexivity
    | apply releases_nothing_scoped_override
    | apply releases_nothing_bind; [|intros ?]
    | match goal with
      | |- releases_nothing (if ?c then _ else _) => destruct c
      | |- releases_nothing (match ?x with _ => _ end) => destruct x
      end ].

(** X3.  Only destructors release.  None of the other operations of the
    three files -- on events: [has_occurred], [query], [record],
    [synchronize] and the factory; on programs: [compile],
    [register_name_for_lookup], [get_mangling_of], [compilation_log], the
    artifact accessors and probes, and the factories; on kernels: the
    attribute getters and setters and the occupancy calculator -- asks the
    platform to destroy an event or a program, whether the operation
    returns or throws. *)
Theorem only_destructors_release {W : Type} {P : Platform W} :
  (forall e : Event.event_t,
      releases_nothing (Event.has_occurred e) /\
      releases_nothing (Event.query e) /\
      releases_nothing (Event.record e) /\
      releases_nothing (Event.synchronize e)) /\
  (forall d c b t i, releases_nothing (Event.create d c b t i)) /\
  (forall (p : Program.program_t) (options : list string) (name : string),
      releases_nothing (Program.compile p options) /\
      releases_nothing (Program.register_name_for_lookup p name) /\
      releases_nothing (Program.get_mangling_of p name) /\
      releases_nothing (Program.compilation_log p) /\
      releases_nothing (Program.ptx p) /\
      releases_nothing (Program.has_ptx p) /\
      releases_nothing (Program.cubin p) /\
      releases_nothing (Program.has_cubin p) /\
      releases_nothing (Program.nvvm p) /\
      releases_nothing (Program.has_nvvm p)) /\
  (forall (name source : string) (names sources : list string),
      releases_nothing (Program.create name source) /\
      releases_nothing (Program.create_with_spans name source names sources) /\
      releases_nothing
        (Program.create_with_iterators name source names sources)) /\
  (forall (k : Kernel.kernel_t) (z : Z) (smem : N) (f : Z -> N) (b : bool),
      releases_nothing (Kernel.get_attribute k z) /\
      releases_nothing (Kernel.maximum_threads_per_block k) /\
      releases_nothing (Kernel.set_cache_preference k z) /\
      releases_nothing (Kernel.set_shared_memory_bank_size k z) /\
      releases_nothing (Kernel.min_grid_params_for_max_occupancy k smem z b) /\
      releases_nothing
        (Kernel.min_grid_params_for_max_occupancy_determiner k f z b)).
Proof.
  repeat match goal with
    | |- _ /\ _ => split
    | |- forall _, _ => intro
    end.
  - unfold Event.has_occurred. quiet.
  - unfold Event.query, Event.has_occurred. quiet.
  - unfold Event.record, Event.enqueue. quiet.
  - unfold Event.synchronize. quiet.
  - unfold Event.create, Event.create_in_current_context. quiet.
  - unfold Program.compile. quiet.
  - unfold Program.register_name_for_lookup. quiet.
  - unfold Program.get_mangling_of. quiet.
  - unfold Program.compilation_log. quiet.
  - unfold Program.ptx. quiet.
  - unfold Program.has_ptx. quiet.
  - unfold Program.cubin. quiet.
  - unfold Program.has_cubin. quiet.
  - unfold Program.nvvm. quiet.
  - unfold Program.has_nvvm. quiet.
  - unfold Program.create, Program.program_t_ctor. quiet.
  - unfold Program.create_with_spans, Program.program_t_ctor. quiet.
  - unfold Program.create_with_iterators, Program.program_t_ctor. quiet.
  - unfold Kernel.get_attribute, Kernel.get_attribute_in_current_context.
    quiet.
  - unfold Kernel.maximum_threads_per_block, Kernel.get_attribute,
      Kernel.get_attribute_in_current_context. quiet.
  - unfold Kernel.set_cache_preference. quiet.
  - unfold Kernel.set_shared_memory_bank_size. quiet.
  - unfold Kernel.min_grid_params_for_max_occupancy,
      Kernel.detail_min_grid_params_for_max_occupancy. quiet.
  - unfold Kernel.min_grid_params_for_max_occupancy_determiner,
      Kernel.detail_min_grid_params_for_max_occupancy. quiet.
Qed.

(** ** An event used in a scope *)

Section EventScope.
Context {W : Type} {P : Platform W}.








End EventScope.


(** ** The compilation log and the artifacts *)

(** X6.  [compilation_log] looks only at the status of the size query:
    when that query succeeds it returns a buffer of the reported size
    whatever [nvrtcGetProgramLog] reports, so a failed fetch of the log
    is not reported to the caller; when the size query fails it throws
    with that status.  [ptx], in the same situation of a failed fetch,
    throws with the status of the fetch. *)
Theorem compilation_log_ignores_the_fetch_status
    {W : Type} {P : Platform W} (this : Program.program_t)
    (st : thread_state W) :
  let h := Program.handle this in
  let log_query := fst (nvrtcGetProgramLogSize h (native st)) in
  let log_fetch :=
    fst (nvrtcGetProgramLog h (snd (nvrtcGetProgramLogSize h (native st)))) in
  let ptx_query := fst (nvrtcGetPTXSize h (native st)) in
  let ptx_fetch :=
    fst (nvrtcGetPTX h (snd (nvrtcGetPTXSize h (native st)))) in
  (fst log_query = NVRTC_SUCCESS ->
   fst (Program.compilation_log this st)
     = Returned (written_into (dynarray_of_size (snd log_query))
                   (snd log_fetch)) /\
   forall r, fst (Program.compilation_log this st) = Returned r ->
             List.length r = N.to_nat (snd log_query)) /\
  (fst log_query <> NVRTC_SUCCESS ->
   fst (Program.compilation_log this st)
     = Thrown (rtc_runtime_error (fst log_query)
                 "Failed obtaining NVRTC program log size")) /\
  (fst ptx_query = NVRTC_SUCCESS -> fst ptx_fetch <> NVRTC_SUCCESS ->
   exists what,
     fst (Program.ptx this st)
       = Thrown (rtc_runtime_error (fst ptx_fetch) what)).
Proof.
  cbn zeta. split; [|split].
  - intros Hok. unfold Program.compilation_log, Program.handle in *. run.
    destruct (nvrtcGetProgramLogSize _ _) as [[s size] w1]. cbn in *.
    subst s. cbn.
    destruct (nvrtcGetProgramLog _ _) as [[s2 data] w2]. cbn.
    split; [reflexivity|].
    intros r Hr. inversion Hr; subst r.
    rewrite written_into_length. apply dynarray_of_size_length.
  - intros Hko. unfold Program.compilation_log, Program.handle in *. run.
    destruct (nvrtcGetProgramLogSize _ _) as [[s size] w1]. cbn in *.
    destruct (Z.eqb_spec s NVRTC_SUCCESS); [contradiction|reflexivity].
  - intros Hok Hko. rewrite ptx_spec. cbn zeta. rewrite Hok. cbn.
    destruct (Z.eqb_spec
                (fst (fst (nvrtcGetPTX (Program.handle this)
                             (snd (nvrtcGetPTXSize (Program.handle this)
                                     (native st))))))
                NVRTC_SUCCESS); [contradiction|eauto].
Qed.

(** X9.  A size of 0 reported with a success status is an error for the
    assembly and the intermediate form and an answer for the binary:
    [has_ptx] and [has_nvvm] throw [std::logic_error] exactly when their
    size query succeeds with size 0, while [has_cubin] never throws a
    [std::logic_error] and returns [false] there. *)
Theorem zero_size_is_a_logic_error_except_for_cubin
    {W : Type} {P : Platform W} (this : Program.program_t)
    (st : thread_state W) :
  let h := Program.handle this in
  let ptx_query := fst (nvrtcGetPTXSize h (native st)) in
  let cubin_query := fst (nvrtcGetCUBINSize h (native st)) in
  let nvvm_query := fst (nvrtcGetNVVMSize h (native st)) in
  ((exists what, fst (Program.has_ptx this st) = Thrown (std_logic_error what))
   <-> fst ptx_query = NVRTC_SUCCESS /\ snd ptx_query = 0%N) /\
  ((exists what, fst (Program.has_nvvm this st) = Thrown (std_logic_error what))
   <-> fst nvvm_query = NVRTC_SUCCESS /\ snd nvvm_query = 0%N) /\
  (forall what, fst (Program.has_cubin this st) <> Thrown (std_logic_error what)) /\
  (fst cubin_query = NVRTC_SUCCESS /\ snd cubin_query = 0%N ->
   fst (Program.has_cubin this st) = Returned false).
Proof.
  cbn zeta. rewrite has_ptx_spec, has_cubin_spec, has_nvvm_spec. cbn zeta.
  cbn [fst].
  set (h := Program.handle this).
  destruct (Z.eqb_spec (fst (fst (nvrtcGetPTXSize h (native st))))
              NVRTC_ERROR_INVALID_PROGRAM) as [Hp4|Hp4];
  destruct (Z.eqb_spec (fst (fst (nvrtcGetPTXSize h (native st))))
              NVRTC_SUCCESS) as [Hp|Hp];
  destruct (N.eqb_spec (snd (fst (nvrtcGetPTXSize h (native st)))) 0)
    as [Hpz|Hpz];
  destruct (Z.eqb_spec (fst (fst (nvrtcGetNVVMSize h (native st))))
              NVRTC_ERROR_INVALID_PROGRAM) as [Hn4|Hn4];
  destruct (Z.eqb_spec (fst (fst (nvrtcGetNVVMSize h (native st))))
              NVRTC_SUCCESS) as [Hn|Hn];
  destruct (N.eqb_spec (snd (fst (nvrtcGetNVVMSize h (native st)))) 0)
    as [Hnz|Hnz];
  destruct (Z.eqb_spec (fst (fst (nvrtcGetCUBINSize h (native st))))
              NVRTC_ERROR_INVALID_PROGRAM) as [Hc4|Hc4];
  destruct (Z.eqb_spec (fst (fst (nvrtcGetCUBINSize h (native st))))
              NVRTC_SUCCESS) as [Hc|Hc];
  repeat match goal with
    | |- _ /\ _ => split
    | |- _ <-> _ => split
    | |- _ -> _ => intro
    | |- _ <> _ => intro
    | H : exists _, _ |- _ => destruct H
    | H : _ /\ _ |- _ => destruct H
    | |- exists _, Thrown _ = Thrown _ => eexists; reflexivity
    | H : ?a = NVRTC_SUCCESS, H' : ?a = NVRTC_ERROR_INVALID_PROGRAM |- _ =>
        rewrite H in H'; discriminate H'
    | H : snd ?q = 0%N |- context [(0 <? snd ?q)%N] => rewrite H
    | _ => reflexivity
    | _ => congruence
    end.
Qed.

Section ReadOnlyArtifacts.
Context {W : Type} {P : Platform W}.
Hypothesis Hread : artifact_calls_are_read_only.
Variable this : Program.program_t.
Variable st : thread_state W.

Lemma ptx_keeps_the_platform :
  native (snd (Program.ptx this st)) = native st.
Proof.
  destruct (Hread (Program.handle_ this) (native st)) as (H1 & H2 & _).
  unfold Program.ptx. run.
  destruct (nvrtcGetPTXSize _ _) as [[s size] w1]. cbn in *. subst w1.
  destruct (s =? NVRTC_SUCCESS); cbn; [|reflexivity].
  destruct (nvrtcGetPTX _ _) as [[s2 data] w2]. cbn in *. subst w2.
  now destruct (s2 =? NVRTC_SUCCESS).
Qed.

Lemma cubin_keeps_the_platform :
  native (snd (Program.cubin this st)) = native st.
Proof.
  destruct (Hread (Program.handle_ this) (native st)) as (_ & _ & H1 & H2 & _).
  unfold Program.cubin. run.
  destruct (nvrtcGetCUBINSize _ _) as [[s size] w1]. cbn in *. subst w1.
  destruct (s =? NVRTC_SUCCESS); cbn; [|reflexivity].
  destruct (size =? 0)%N; [reflexivity|].
  destruct (nvrtcGetCUBIN _ _) as [[s2 data] w2]. cbn in *. subst w2.
  now destruct (s2 =? NVRTC_SUCCESS).
Qed.

Lemma nvvm_keeps_the_platform :
  native (snd (Program.nvvm this st)) = native st.
Proof.
  destruct (Hread (Program.handle_ this) (native st))
    as (_ & _ & _ & _ & H1 & H2).
  unfold Program.nvvm. run.
  destruct (nvrtcGetNVVMSize _ _) as [[s size] w1]. cbn in *. subst w1.
  destruct (s =? NVRTC_SUCCESS); cbn; [|reflexivity].
  destruct (nvrtcGetNVVM _ _) as [[s2 data] w2]. cbn in *. subst w2.
  now destruct (s2 =? NVRTC_SUCCESS).
Qed.

End ReadOnlyArtifacts.

(** What an accessor yields depends on the thread's state through the
    platform's world only. *)
Lemma accessors_depend_on_the_platform_only
    {W : Type} {P : Platform W} (this : Program.program_t)
    (st st' : thread_state W) :
  native st' = native st ->
  fst (Program.ptx this st') = fst (Program.ptx this st) /\
  fst (Program.cubin this st') = fst (Program.cubin this st) /\
  fst (Program.nvvm this st') = fst (Program.nvvm this st).
Proof.
  intros Hnative. rewrite !ptx_spec, !cubin_spec, !nvvm_spec.
  now rewrite Hnative.
Qed.

(** The reference platform's artifact calls are reads. *)
Lemma sim_artifact_calls_are_read_only :
  artifact_calls_are_read_only (W := Sim.world).
Proof.
  intros prog w. cbn. unfold Sim.sim_size, Sim.sim_data.
  destruct (Sim.down w); [repeat split|].
  destruct (Sim.artifact Sim.art_ptx prog w),
    (Sim.artifact Sim.art_cubin prog w),
    (Sim.artifact Sim.art_nvvm prog w); repeat split.
Qed.

(** X7.  Fetching an artifact is idempotent: on a platform whose size
    queries and fetches are reads, an accessor leaves the platform's
    state as it was and two consecutive calls of [ptx], of [cubin] or of
    [nvvm] have the same outcome: the same bytes, or the same
    exception. *)
Theorem artifact_fetch_is_idempotent
    {W : Type} {P : Platform W} (this : Program.program_t)
    (st : thread_state W) :
  artifact_calls_are_read_only ->
  (native (snd (Program.ptx this st)) = native st /\
   fst (Program.ptx this (snd (Program.ptx this st)))
     = fst (Program.ptx this st)) /\
  (native (snd (Program.cubin this st)) = native st /\
   fst (Program.cubin this (snd (Program.cubin this st)))
     = fst (Program.cubin this st)) /\
  (native (snd (Program.nvvm this st)) = native st /\
   fst (Program.nvvm this (snd (Program.nvvm this st)))
     = fst (Program.nvvm this st)).
Proof.
  intros Hread.
  pose proof (ptx_keeps_the_platform Hread this st) as Hp.
  pose proof (cubin_keeps_the_platform Hread this st) as Hc.
  pose proof (nvvm_keeps_the_platform Hread this st) as Hn.
  repeat split; try assumption.
  - apply (accessors_depend_on_the_platform_only this st _ Hp).
  - apply (accessors_depend_on_the_platform_only this st _ Hc).
  - apply (accessors_depend_on_the_platform_only this st _ Hn).
Qed.

(** On the reference platform: the assembly of a compiled program, fetched
    twice. *)
Lemma artifact_fetch_is_idempotent_witness :
  let p := Program.mk_program_t 4096 "prog" true in
  let created := snd (Program.create "prog" "void k(){}"
                        (Sim.thread Sim.initial)) in
  let compiled := snd (Program.compile p [] created) in
  artifact_calls_are_read_only (W := Sim.world) /\
  fst (Program.ptx p compiled)
    = Returned (list_byte_of_string "void k(){}" ++ [x00]) /\
  fst (Program.ptx p (snd (Program.ptx p compiled)))
    = fst (Program.ptx p compiled).
Proof.
  intros p created compiled.
  split; [exact sim_artifact_calls_are_read_only|].
  split; [reflexivity|].
  exact (proj2 (proj1 (artifact_fetch_is_idempotent p compiled
                         sim_artifact_calls_are_read_only))).
Defined.



(** X10.  Which failures name the program.  When the size query of
    [cubin], of [nvvm] or of [compilation_log] is rejected, the exception
    thrown depends on the status alone: two different programs rejected
    with the same status throw the same exception, whose message does not
    identify either.  The failure of the size query of [ptx], in
    contrast, carries a message that ends with the identification of the
    program (its name and handle). *)
Theorem size_failures_of_cubin_nvvm_and_log_do_not_name_the_program
    {W : Type} {P : Platform W} (p1 p2 : Program.program_t)
    (st1 st2 : thread_state W) :
  let status (query : handle_t -> W -> status_t * size_t * W) p st :=
    fst (fst (query (Program.handle p) (native st))) in
  (status nvrtcGetCUBINSize p1 st1 <> NVRTC_SUCCESS ->
   status nvrtcGetCUBINSize p1 st1 = status nvrtcGetCUBINSize p2 st2 ->
   fst (Program.cubin p1 st1) = fst (Program.cubin p2 st2)) /\
  (status nvrtcGetNVVMSize p1 st1 <> NVRTC_SUCCESS ->
   status nvrtcGetNVVMSize p1 st1 = status nvrtcGetNVVMSize p2 st2 ->
   fst (Program.nvvm p1 st1) = fst (Program.nvvm p2 st2)) /\
  (status nvrtcGetProgramLogSize p1 st1 <> NVRTC_SUCCESS ->
   status nvrtcGetProgramLogSize p1 st1 = status nvrtcGetProgramLogSize p2 st2 ->
   fst (Program.compilation_log p1 st1) = fst (Program.compilation_log p2 st2)) /\
  (status nvrtcGetPTXSize p1 st1 <> NVRTC_SUCCESS ->
   exists prefix,
     fst (Program.ptx p1 st1)
       = Thrown (rtc_runtime_error (status nvrtcGetPTXSize p1 st1)
                   (prefix +++ "program " +++ Program.name p1 +++ " at "
                    +++ ptr_as_hex (Program.handle p1)))).
Proof.
  cbn zeta. repeat match goal with |- _ /\ _ => split end.
  - intros Hko Hsame. rewrite !cubin_spec. cbn zeta. rewrite <- Hsame.
    destruct (Z.eqb_spec
                (fst (fst (nvrtcGetCUBINSize (Program.handle p1) (native st1))))
                NVRTC_SUCCESS); [contradiction|reflexivity].
  - intros Hko Hsame. rewrite !nvvm_spec. cbn zeta. rewrite <- Hsame.
    destruct (Z.eqb_spec
                (fst (fst (nvrtcGetNVVMSize (Program.handle p1) (native st1))))
                NVRTC_SUCCESS); [contradiction|reflexivity].
  - intros Hko Hsame.
    unfold Program.compilation_log, Program.handle in *. run.
    destruct (nvrtcGetProgramLogSize (Program.handle_ p1) _) as [[s1 n1] w1].
    destruct (nvrtcGetProgramLogSize (Program.handle_ p2) _) as [[s2 n2] w2].
    cbn in *. subst s2.
    destruct (Z.eqb_spec s1 NVRTC_SUCCESS); [contradiction|reflexivity].
  - intros Hko. rewrite ptx_spec. cbn zeta.
    destruct (Z.eqb_spec
                (fst (fst (nvrtcGetPTXSize (Program.handle p1) (native st1))))
                NVRTC_SUCCESS); [contradiction|].
    eexists. reflexivity.
Qed.

(** ** Kernel attributes *)

Lemma to_int_range (z : Z) : - 2 ^ 31 <= to_int z < 2 ^ 31.
Proof.
  unfold to_int. pose proof (Z.mod_pos_bound (z + 2 ^ 31) (2 ^ 32)). lia.
Qed.

(** X11.  The range check of
    [set_maximum_dynamic_shared_memory_per_block] converts the requested
    amount to [int] and back to the unsigned shared-memory size type and
    rejects the amount when the round trip changes it.  For a size type
    of [bits >= 32] bits, the amounts that pass are those below [2^31]
    and the top [2^31] values of the type; every other amount is
    rejected with [std::invalid_argument] and nothing is set.  In
    particular, with a 32-bit size type no amount is ever rejected, and
    an amount of [2^31] or more reaches [set_attribute] as a negative
    value. *)
Theorem dynamic_shared_memory_range_check
    {W : Type} {P : Platform W}
    (set_attribute : Kernel.kernel_t -> Z -> Z -> M W unit) (bits : Z)
    (this : Kernel.kernel_t) (amount : Z) (st : thread_state W) :
  32 <= bits ->
  0 <= amount < 2 ^ bits ->
  let call :=
    Kernel.set_maximum_dynamic_shared_memory_per_block set_attribute bits
      this amount st in
  let forwarded :=
    set_attribute this CU_FUNC_ATTRIBUTE_MAX_DYNAMIC_SHARED_SIZE_BYTES
      (to_int amount) st in
  (amount < 2 ^ 31 -> call = forwarded /\ to_int amount = amount) /\
  (2 ^ bits - 2 ^ 31 <= amount ->
   call = forwarded /\ to_int amount = amount - 2 ^ bits) /\
  (2 ^ 31 <= amount < 2 ^ bits - 2 ^ 31 ->
   exists what, call = (Thrown (std_invalid_argument what), st)) /\
  (bits = 32 -> call = forwarded).
Proof.
  intros Hbits Hamount. cbn zeta.
  unfold Kernel.set_maximum_dynamic_shared_memory_per_block,
    Kernel.to_shared_size.
  assert (Hsplit : 2 ^ bits = 2 ^ (bits - 32) * 2 ^ 32).
  { rewrite <- Z.pow_add_r by lia. f_equal. lia. }
  assert (Hm : 1 <= 2 ^ (bits - 32)).
  { pose proof (Z.pow_pos_nonneg 2 (bits - 32)). lia. }
  remember (2 ^ (bits - 32)) as m eqn:Em.
  remember (2 ^ bits) as B eqn:EB.
  assert (Hlow : amount < 2 ^ 31 ->
                 to_int amount = amount /\ to_int amount mod B = amount).
  { intros Hlt. rewrite to_int_small by lia. split; [reflexivity|].
    apply Z.mod_small. lia. }
  assert (Hhigh : B - 2 ^ 31 <= amount ->
                  to_int amount = amount - B /\ to_int amount mod B = amount).
  { intros Hge.
    assert (Ht : to_int amount = amount - B).
    { unfold to_int.
      replace (amount + 2 ^ 31) with ((amount + 2 ^ 31 - B) + m * 2 ^ 32)
        by lia.
      rewrite Z.mod_add by lia. rewrite Z.mod_small; lia. }
    split; [exact Ht|]. rewrite Ht.
    replace (amount - B) with (amount + (-1) * B) by lia.
    rewrite Z.mod_add by lia. apply Z.mod_small. lia. }
  assert (Hmid : 2 ^ 31 <= amount < B - 2 ^ 31 ->
                 to_int amount mod B <> amount).
  { intros Hrange. pose proof (to_int_range amount) as Ht.
    destruct (Z.lt_ge_cases (to_int amount) 0) as [Hneg|Hpos].
    - replace (to_int amount) with ((to_int amount + B) + (-1) * B) by lia.
      rewrite Z.mod_add by lia. rewrite Z.mod_small; lia.
    - rewrite Z.mod_small; lia. }
  repeat match goal with |- _ /\ _ => split end.
  - intros Hlt. destruct (Hlow Hlt) as [Ht Hround]. rewrite Hround.
    rewrite Z.eqb_refl. cbn. split; [reflexivity|exact Ht].
  - intros Hge. destruct (Hhigh Hge) as [Ht Hround]. rewrite Hround.
    rewrite Z.eqb_refl. cbn. split; [reflexivity|exact Ht].
  - intros Hrange. specialize (Hmid Hrange).
    destruct (Z.eqb_spec amount (to_int amount mod B)) as [Heq|Hne];
      [congruence|]. cbn. eexists. reflexivity.
  - intros H32. subst bits. change (2 ^ (32 - 32)) with 1 in Em. subst m.
    destruct (Z.lt_ge_cases amount (2 ^ 31)) as [Hlt|Hge].
    + destruct (Hlow Hlt) as [_ Hround]. rewrite Hround, Z.eqb_refl.
      reflexivity.
    + destruct (Hhigh ltac:(lia)) as [_ Hround]. rewrite Hround, Z.eqb_refl.
      reflexivity.
Qed.

(** With a 32-bit size type, a request for three gibibytes: it passes the
    check and is forwarded as a negative attribute value. *)
Lemma dynamic_shared_memory_range_check_witness :
  let set_attribute :=
    fun (_ : Kernel.kernel_t) (_ _ : Z) => ret (W := Sim.world) tt in
  let kernel := Kernel.wrap 0 256 8192 in
  let amount := 3 * 2 ^ 30 in
  32 <= 32 /\ 0 <= amount < 2 ^ 32 /\
  Kernel.set_maximum_dynamic_shared_memory_per_block set_attribute 32
    kernel amount (Sim.thread Sim.initial)
  = set_attribute kernel CU_FUNC_ATTRIBUTE_MAX_DYNAMIC_SHARED_SIZE_BYTES
      (to_int amount) (Sim.thread Sim.initial) /\
  to_int amount = - 2 ^ 30.
Proof.
  intros set_attribute kernel amount.
  assert (Hbits : 32 <= 32) by lia.
  assert (Hamount : 0 <= amount < 2 ^ 32) by (subst amount; lia).
  split; [exact Hbits|]. split; [exact Hamount|].
  destruct (dynamic_shared_memory_range_check set_attribute 32 kernel amount
              (Sim.thread Sim.initial) Hbits Hamount)
    as (_ & Hhigh & _).
  assert (Htop : 2 ^ 32 - 2 ^ 31 <= amount) by (subst amount; lia).
  destruct (Hhigh Htop) as [Hcall Hvalue].
  split; [exact Hcall|]. rewrite Hvalue. subst amount. reflexivity.
Defined.

(** ** The occupancy calculator on an old runtime *)

(** X12.  With a CUDA runtime of version 10.0 or older, every
    [min_grid_params_for_max_occupancy] -- the two free functions and the
    two members -- throws a [cuda::runtime_error] with the status
    [not_yet_implemented], for all arguments, without asking the platform
    anything: the thread's state is untouched. *)
Theorem occupancy_is_not_implemented_on_an_old_runtime
    {W : Type} {P : Platform W} (kernel : Kernel.kernel_t) (smem : N)
    (determiner : Z -> N) (L : Z) (disable_caching_override : bool)
    (st : thread_state W) :
  CUDART_VERSION <= 10000 ->
  let refused :=
    (Thrown (A := Kernel.complete_dimensions_t)
       (cuda_runtime_error status_not_yet_implemented EmptyString), st) in
  Kernel.min_grid_params_for_max_occupancy kernel smem L
    disable_caching_override st = refused /\
  Kernel.min_grid_params_for_max_occupancy_determiner kernel determiner L
    disable_caching_override st = refused /\
  Kernel.kernel_t_min_grid_params_for_max_occupancy kernel smem L
    disable_caching_override st = refused /\
  Kernel.kernel_t_min_grid_params_for_max_occupancy_determiner kernel
    determiner L disable_caching_override st = refused.
Proof.
  intros Hold. cbn zeta.
  unfold Kernel.kernel_t_min_grid_params_for_max_occupancy,
    Kernel.kernel_t_min_grid_params_for_max_occupancy_determiner,
    Kernel.min_grid_params_for_max_occupancy,
    Kernel.min_grid_params_for_max_occupancy_determiner,
    Kernel.detail_min_grid_params_for_max_occupancy.
  destruct (Z.leb_spec CUDART_VERSION 10000) as [_|Hnew]; [|lia].
  repeat split.
Qed.

(** The reference platform behind a runtime of version 10.0. *)
Lemma occupancy_is_not_implemented_on_an_old_runtime_witness :
  let kernel := Kernel.wrap 0 256 8192 in
  let st := Sim.thread Sim.initial in
  CUDART_VERSION (Platform := legacy_platform) <= 10000 /\
  Kernel.min_grid_params_for_max_occupancy (P := legacy_platform) kernel
    0%N 256 false st
  = (Thrown (cuda_runtime_error 31 EmptyString), st).
Proof.
  intros kernel st.
  assert (Hold : CUDART_VERSION (Platform := legacy_platform) <= 10000)
    by (cbn; lia).
  split; [exact Hold|].
  exact (proj1 (occupancy_is_not_implemented_on_an_old_runtime
                  (P := legacy_platform) kernel 0%N (fun _ => 0%N) 256 false
                  st Hold)).
Defined.

(** ** A program used in a scope *)




(** ** The event factory *)

(** X14.  [event::detail_::create] asks the platform for one event, with
    the flags that encode its three boolean arguments (timing is disabled
    in the flags exactly when [records_timing] is [false]), and leaves
    the thread's context stack as it was.  When the platform succeeds the
    result is an owning proxy for the new handle that carries the device
    id and the context handle given to the factory; when it fails the
    factory throws a [cuda::runtime_error] with the platform's status and
    there is no proxy, hence nothing to release. *)
Theorem event_factory_contract {W : Type} {P : Platform W}
    (d : device_id_t) (c : handle_t) (b t i : bool) (st : thread_state W) :
  let r := Event.create d c b t i st in
  let answer := cuEventCreate (Event.make_flags b t i) (native st) in
  calls (snd r) = calls st ++ [CuEventCreate (Event.make_flags b t i)] /\
  Z.testbit (Event.make_flags b t i) 1 = negb t /\
  context_stack (snd r) = context_stack st /\
  (fst (fst answer) = CUDA_SUCCESS ->
   exists e, fst r = Returned e /\
             Event.is_owning e = true /\
             Event.handle e = snd (fst answer) /\
             Event.device_id e = d /\
             Event.context_handle e = c) /\
  (fst (fst answer) <> CUDA_SUCCESS ->
   exists what,
     fst r = Thrown (cuda_runtime_error (fst (fst answer)) what)).
Proof.
  cbn zeta. rewrite event_create_spec. cbn zeta. cbn [fst snd calls context_stack].
  split; [reflexivity|]. split; [now destruct b, t, i|].
  split; [reflexivity|].
  destruct (Z.eqb_spec
              (fst (fst (cuEventCreate (Event.make_flags b t i) (native st))))
              CUDA_SUCCESS) as [Hok|Hko]; split; intros H;
    try contradiction.
  - eexists. repeat split.
  - eexists. reflexivity.
Qed.
